(** * DMS-ODC: the document registry of [src/index.tsx]

    A shallow embedding of the sync helper, the in-memory document
    repository and the search/sort engine of the single-page document
    registry, with the properties of its specification.

    Conventions of the embedding.
    - JavaScript strings are [string]s of bytes (UTF-8).  [toLowerCase]
      maps the ASCII letters only (Thai has no case), [trim] strips the
      ASCII white space and line terminators.
    - JavaScript numbers that the program manipulates are integers
      (sizes, delays, epoch milliseconds) and are values of [Z]; [NaN]
      is [None] of [option Z].
    - An [async] function is embedded as a function of the outcomes of
      the exchanges it awaits; it returns the trace of the exchanges it
      performed together with its completion.
    - A handler is a function on [AppState]; console output, button
      labels, spinners and modal visibility are not part of the state. *)

From Stdlib Require Import ZArith String Ascii List Bool Lia Sorted Permutation.
From Stdlib Require Import DecimalString.
From stdpp Require Import base option list strings gmap sorting.
Import ListNotations.

#[local] Set Warnings "-register-all".
#[local] Open Scope string_scope.
#[local] Open Scope list_scope.
#[local] Open Scope Z_scope.

(** ** Completions: a value, or a thrown value *)

Inductive ErrorClass := ErrorK | TypeErrorK | SyntaxErrorK.

(** What a [throw] or a rejected promise carries: an [Error] object
    of the given class, or a value that is not an [Error] instance (a
    [ProgressEvent], a string). *)
Inductive Thrown :=
| JsError (cls : ErrorClass) (message : string)
| NonError.

Inductive Result (A : Type) :=
| Ok (a : A)
| Throw (e : Thrown).
Arguments Ok {A} a.
Arguments Throw {A} e.

Definition bind {A B} (r : Result A) (k : A -> Result B) : Result B :=
  match r with
  | Ok a => k a
  | Throw e => Throw e
  end.

Notation "'do' x <- r ; k" := (bind r (fun x => k))
  (at level 10, x name, r at level 100, k at level 200).

(** [try { body } catch (e) { handler e }] *)
Definition try_catch {A} (body : Result A) (handler : Thrown -> Result A) : Result A :=
  match body with
  | Ok a => Ok a
  | Throw e => handler e
  end.

Definition instanceof_TypeError (e : Thrown) : bool :=
  match e with
  | JsError TypeErrorK _ => true
  | _ => false
  end.

Definition instanceof_Error (e : Thrown) : bool :=
  match e with
  | NonError => false
  | _ => true
  end.

(** [e.message === m] *)
Definition message_is (e : Thrown) (m : string) : bool :=
  match e with
  | JsError _ msg => String.eqb msg m
  | _ => false
  end.

(** ** Documents *)

Record Document := {
  id : string;
  docNumber : string;
  source : string;
  subject : string;
  docDate : string;
  notes : string;
  tags : list string;
  createdAt : string;
  fileName : option string;
  fileContent : option string;
  fileType : option string;
  (* legacy properties of documents stored by earlier versions *)
  fileName2 : option string;
  fileContent2 : option string;
  fileType2 : option string
}.

(** ** JSON values *)

Inductive JsValue :=
| JNull
| JBool (b : bool)
| JNum (z : Z)
| JStr (s : string)
| JArr (l : list JsValue)
| JObj (o : gmap string JsValue).

Definition truthy (v : option JsValue) : bool :=
  match v with
  | None | Some JNull => false
  | Some (JBool b) => b
  | Some (JNum z) => negb (z =? 0)
  | Some (JStr s) => negb (String.eqb s "")
  | Some (JArr _) | Some (JObj _) => true
  end.

Definition string_of_Z (z : Z) : string := NilEmpty.string_of_int (Z.to_int z).

Fixpoint join (sep : string) (l : list string) : string :=
  match l with
  | [] => ""
  | [s] => s
  | s :: l' => s +:+ sep +:+ join sep l'
  end.

(** [String(v)] *)
Fixpoint ToString (v : JsValue) : string :=
  match v with
  | JNull => "null"
  | JBool true => "true"
  | JBool false => "false"
  | JNum z => string_of_Z z
  | JStr s => s
  | JArr l =>
      join "," (List.map (fun x => match x with JNull => "" | _ => ToString x end) l)
  | JObj _ => "[object Object]"
  end.

(** ** The host: the built-ins whose behaviour the program takes as given *)

Class JsHost := {
  (** [JSON.parse]; [None] when it throws a [SyntaxError]. *)
  JSON_parse : string -> option JsValue;
  (** [new Date(s).getTime()]; [None] is [NaN]. *)
  Date_parse : string -> option Z;
  (** [a.localeCompare(b, 'th')] *)
  localeCompare_th : string -> string -> Z;
  (** Offset of the local time zone from UTC, in milliseconds. *)
  LocalTZA : Z;
  (** The message text of an error object that the engine creates. *)
  engine_message : ErrorClass -> string;
  (** [localStorage.setItem('documents', JSON.stringify(v))]: [None]
      when the item is stored, [Some e] when the call throws [e] (a
      [QuotaExceededError] when the text does not fit) and the item
      stays as it was. *)
  setItem_throws : list Document -> option Thrown
}.

(** An error raised by the engine itself. *)
Definition engine_throw `{JsHost} {A} (cls : ErrorClass) : Result A :=
  Throw (JsError cls (engine_message cls)).

(** [v.k]; [Ok None] is [undefined], reading a property of [null]
    throws a [TypeError]. *)
Definition get_prop `{JsHost} (v : JsValue) (k : string) : Result (option JsValue) :=
  match v with
  | JNull => engine_throw TypeErrorK
  | JObj o => Ok (o !! k)
  | _ => Ok None
  end.

(** ** String built-ins

    A string is the UTF-8 text of the JavaScript string.  Letter case
    and white space are those of ASCII: [toLowerCase] and [trim] below
    are the engine's on text of ASCII characters and of a script
    without letter case or spaces of its own, such as Thai (see
    [ascii_or_thai]); outside it the engine also lowers letters such
    as [É] and strips spaces such as U+00A0. *)

Definition is_upper (c : ascii) : bool :=
  (65 <=? nat_of_ascii c)%nat && (nat_of_ascii c <=? 90)%nat.

Definition lower_ascii (c : ascii) : ascii :=
  if is_upper c then ascii_of_nat (nat_of_ascii c + 32) else c.

(** [s.toLowerCase()] *)
Fixpoint toLowerCase (s : string) : string :=
  match s with
  | EmptyString => EmptyString
  | String c s' => String (lower_ascii c) (toLowerCase s')
  end.

(** Tab, line feed, vertical tab, form feed, carriage return, space. *)
Definition is_space (c : ascii) : bool :=
  ((9 <=? nat_of_ascii c)%nat && (nat_of_ascii c <=? 13)%nat)
  || (nat_of_ascii c =? 32)%nat.

Fixpoint trimStart (s : string) : string :=
  match s with
  | EmptyString => EmptyString
  | String c s' => if is_space c then trimStart s' else s
  end.

Fixpoint trimEnd (s : string) : string :=
  match s with
  | EmptyString => EmptyString
  | String c s' =>
      match trimEnd s' with
      | EmptyString => if is_space c then EmptyString else String c EmptyString
      | t => String c t
      end
  end.

(** [s.trim()] *)
Definition trim (s : string) : string := trimEnd (trimStart s).


(** [s.includes(q)] *)
Fixpoint includes (s q : string) : bool :=
  String.prefix q s
  || match s with
     | EmptyString => false
     | String _ s' => includes s' q
     end.

(** [s.split('/')] *)
Fixpoint split_slash (s : string) : list string :=
  match s with
  | EmptyString => [EmptyString]
  | String c s' =>
      if Ascii.eqb c "/" then EmptyString :: split_slash s'
      else match split_slash s' with
           | p :: ps => String c p :: ps
           | [] => [String c EmptyString]
           end
  end.

Definition is_digit (c : ascii) : bool :=
  (48 <=? nat_of_ascii c)%nat && (nat_of_ascii c <=? 57)%nat.

Definition digit_value (c : ascii) : Z := Z.of_nat (nat_of_ascii c) - 48.

(** The value of the longest prefix of decimal digits, [acc] when
    there is none. *)
Fixpoint leading_digits (s : string) (acc : option Z) : option Z :=
  match s with
  | EmptyString => acc
  | String c s' =>
      if is_digit c
      then leading_digits s' (Some (10 * default 0 acc + digit_value c))
      else acc
  end.

(** [parseInt(s, 10)]; [None] is [NaN]. *)
Definition parseInt (s : string) : option Z :=
  match trimStart s with
  | String "-" s' => Z.opp <$> leading_digits s' None
  | String "+" s' => leading_digits s' None
  | s' => leading_digits s' None
  end.

(** [/^\d{2}\/\d{2}\/\d{4}$/.test(s)] *)
Definition dateRegex_test (s : string) : bool :=
  match s with
  | String d1 (String d2 (String s1 (String m1 (String m2 (String s2
      (String y1 (String y2 (String y3 (String y4 EmptyString))))))))) =>
      is_digit d1 && is_digit d2 && Ascii.eqb s1 "/"
      && is_digit m1 && is_digit m2 && Ascii.eqb s2 "/"
      && is_digit y1 && is_digit y2 && is_digit y3 && is_digit y4
  | _ => false
  end.

(** ** Dates: the time value of [new Date(year, month, date)] *)

Definition msPerDay : Z := 86400000.

Definition DaysInYear (y : Z) : Z :=
  if negb (y mod 4 =? 0) then 365
  else if negb (y mod 100 =? 0) then 366
  else if negb (y mod 400 =? 0) then 365
  else 366.

Definition DayFromYear (y : Z) : Z :=
  365 * (y - 1970) + (y - 1969) / 4 - (y - 1901) / 100 + (y - 1601) / 400.

(** Days from 1 January to the first day of month [mn] (0 to 11). *)
Definition DayWithinYear (leap : bool) (mn : Z) : Z :=
  let l := if leap then 1 else 0 in
  match mn with
  | 0 => 0
  | 1 => 31
  | 2 => 59 + l
  | 3 => 90 + l
  | 4 => 120 + l
  | 5 => 151 + l
  | 6 => 181 + l
  | 7 => 212 + l
  | 8 => 243 + l
  | 9 => 273 + l
  | 10 => 304 + l
  | _ => 334 + l
  end.

Definition MakeDay (year month date : Z) : Z :=
  let ym := year + month / 12 in
  let mn := month mod 12 in
  DayFromYear ym + DayWithinYear (DaysInYear ym =? 366) mn + date - 1.

Definition TimeClip (time : Z) : option Z :=
  if 8640000000000000 <? Z.abs time then None else Some time.

Section Dates.
Context `{JsHost}.

(** [new Date(year, month, date).getTime()]: a year from 0 to 99 is
    taken as 1900 + year; the date is in local time. *)
Definition Date_ymd (year month date : option Z) : option Z :=
  y ← year; m ← month; dt ← date;
  let yr := if (0 <=? y) && (y <=? 99) then 1900 + y else y in
  TimeClip (MakeDay yr m dt * msPerDay - LocalTZA).

Definition beDateToTimestamp (beDateString : string) : option Z :=
  if String.eqb beDateString "" then Some 0
  else
    match split_slash beDateString with
    | [day; month; year] =>
        let beYear := parseInt year in
        let gregorianYear := (fun y => y - 543) <$> beYear in
        (* JS months are 0-indexed *)
        Date_ymd gregorianYear ((fun m => m - 1) <$> parseInt month) (parseInt day)
    | _ => Some 0
    end.

End Dates.
(** ** Google Sheet sync helper *)

Inductive Payload :=
| PDocument (d : Document)
| PId (docId : string)
| PEmpty.

Record Response := {
  ok : bool;
  status : Z;
  text : Result string
}.

Inductive FetchOutcome :=
| Rejected (e : Thrown)
| Resolved (response : Response).

(** The outcomes of the exchanges an operation performs, in order. *)
Definition Network := nat -> FetchOutcome.

Inductive Event :=
| EvFetch (action : string) (payload : Payload)
| EvWait (ms : Z).

Definition dquote : string := String "034"%char EmptyString.

Definition MSG_UNKNOWN_SYNC : string :=
  "เกิดข้อผิดพลาดที่ไม่ทราบสาเหตุกับการซิงค์ Google Sheets".
Definition MSG_INVALID_RESPONSE : string :=
  "ได้รับข้อมูลตอบกลับที่ไม่ถูกต้องจากเซิร์ฟเวอร์".
Definition MSG_FETCH_FAILED : string :=
  "การซิงค์ข้อมูลล้มเหลว (Failed to fetch) กรุณาตรวจสอบการเชื่อมต่ออินเทอร์เน็ต และตรวจสอบว่าสิทธิ์ของ Google Sheets Web App ถูกตั้งค่าให้ "
  +:+ dquote +:+ "ทุกคน" +:+ dquote +:+ " เข้าถึงได้".

Section Remote.
Context `{JsHost}.

(** Lines 31-40: the inner [try]/[catch] around the parsed body. *)
Definition parse_response (textData : string) : Result (option JsValue) :=
  try_catch
    (match JSON_parse textData with
     | None => engine_throw SyntaxErrorK
     | Some result =>
         do success <- get_prop result "success";
         match success with
         | Some (JBool false) =>
             do error <- get_prop result "error";
             Throw (JsError ErrorK
                      (match error with
                       | Some e => if truthy error then ToString e else MSG_UNKNOWN_SYNC
                       | None => MSG_UNKNOWN_SYNC
                       end))
         | _ => get_prop result "data"
         end
     end)
    (fun e => Throw (JsError ErrorK MSG_INVALID_RESPONSE)).

(** Lines 15-40: the body of the outer [try], one exchange. *)
Definition attempt (o : FetchOutcome) : Result (option JsValue) :=
  match o with
  | Rejected e => Throw e
  | Resolved response =>
      if negb (ok response)
      then Throw (JsError ErrorK ("HTTP error! status: " +:+ string_of_Z (status response)))
      else do textData <- text response; parse_response textData
  end.

Definition isFetchError (error : Thrown) : bool :=
  instanceof_TypeError error && message_is error "Failed to fetch".

Fixpoint syncWithGoogleSheet (net : Network) (action : string) (payload : Payload)
    (retries : nat) (delay : Z) : list Event * Result (option JsValue) :=
  match attempt (net 0%nat) with
  | Ok data => ([EvFetch action payload], Ok data)
  | Throw error =>
      if isFetchError error then
        match retries with
        | S retries' =>
            let '(tr, r) :=
              syncWithGoogleSheet (fun k => net (S k)) action payload retries' (delay * 2) in
            (EvFetch action payload :: EvWait delay :: tr, r)
        | O => ([EvFetch action payload], Throw (JsError ErrorK MSG_FETCH_FAILED))
        end
      else ([EvFetch action payload], Throw error)
  end.

(** The call with the default [retries = 2], [delay = 1000], as every
    call site makes it. *)
Definition execute (net : Network) (action : string) (payload : Payload) :=
  syncWithGoogleSheet net action payload 2 1000.

End Remote.

(** The number of exchanges in a trace, and its delays. *)
Fixpoint fetches (tr : list Event) : nat :=
  match tr with
  | [] => 0
  | EvFetch _ _ :: tr' => S (fetches tr')
  | EvWait _ :: tr' => fetches tr'
  end.

Fixpoint waits (tr : list Event) : list Z :=
  match tr with
  | [] => []
  | EvWait ms :: tr' => ms :: waits tr'
  | _ :: tr' => waits tr'
  end.

(** The delays of [n] successive retries. *)
Fixpoint backoff (delay : Z) (n : nat) : list Z :=
  match n with
  | O => []
  | S n' => delay :: backoff (delay * 2) n'
  end.




(** The exchange fails the way [syncWithGoogleSheet] retries. *)
Definition retryable `{JsHost} (o : FetchOutcome) : Prop :=
  exists e, attempt o = Throw e /\ isFetchError e = true.

(** A body that parses to a structure whose [success] is [false] and
    whose [error] is the text [message]. *)
Definition refusal `{JsHost} (body : string) (message : string) : Prop :=
  exists o, JSON_parse body = Some (JObj o)
            /\ o !! "success" = Some (JBool false)
            /\ o !! "error" = Some (JStr message).

(** ** Application state *)

Inductive Direction := asc | desc.

(** The values [currentSort.key] takes: its initial value and the
    [data-sort-key] of the four sortable headers. *)
Inductive SortKey := K_createdAt | K_docNumber | K_docDate | K_source | K_subject.

Record SortState := { key : SortKey; direction : Direction }.

#[global] Instance Direction_eq_dec : EqDecision Direction.
Proof. solve_decision. Defined.
#[global] Instance SortKey_eq_dec : EqDecision SortKey.
Proof. solve_decision. Defined.

Inductive ToastType := success | error.

(** The content of [#search-results]. *)
Inductive ResultsView :=
| VInitial
| VNoDocuments
| VNotFound (title : string)
| VTable (title : string) (headers : list (SortKey * option Direction)) (rows : list Document).

Record File := {
  file_name : string;
  file_type : string;
  file_size : Z;
  (** what [fileToBase64] resolves to, or rejects with *)
  file_base64 : Result string
}.

(** A file input with its display area and error message. *)
Record FileInput := {
  files : option File;
  displayArea : string;
  errorElement : string;
  invalid : bool
}.

Inductive FileInputId := attachment | edit_attachment.

Record AppState := {
  documents : list Document;
  (** the [documents] item of [localStorage], by its value *)
  localStorage : list Document;
  (** number of [localStorage.setItem] calls that stored the item *)
  cacheWrites : nat;
  currentSort : SortState;
  lastRenderedDocs : list Document;
  lastRenderedTitle : string;
  (** [#search-view] is displayed *)
  searchViewShown : bool;
  (** value of [#search-input] *)
  searchInput : string;
  resultsView : ResultsView;
  toasts : list (string * ToastType);
  (** text that validation has written into the [.error-message]
      elements of the edit form: input name, message *)
  editErrors : list (string * string);
  attachmentInput : FileInput;
  editAttachmentInput : FileInput;
  (** every exchange with the remote store and every back-off delay *)
  remoteLog : list Event;
  (** text of the max-length hints that [setupMaxLengthWarning] puts
      right after [#docNumber] and [#edit-docNumber] *)
  docNumberHint : string;
  editDocNumberHint : string
}.

Definition set_documents (v : list Document) (st : AppState) : AppState :=
  {| documents := v; localStorage := localStorage st; cacheWrites := cacheWrites st;
     currentSort := currentSort st; lastRenderedDocs := lastRenderedDocs st;
     lastRenderedTitle := lastRenderedTitle st; searchViewShown := searchViewShown st;
     searchInput := searchInput st; resultsView := resultsView st; toasts := toasts st;
     editErrors := editErrors st; attachmentInput := attachmentInput st;
     editAttachmentInput := editAttachmentInput st; remoteLog := remoteLog st;
     docNumberHint := docNumberHint st; editDocNumberHint := editDocNumberHint st |}.

(** [localStorage.setItem('documents', JSON.stringify(v))]: the item is
    stored, or the call throws and nothing is changed. *)
Definition localStorage_setItem `{JsHost} (v : list Document) (st : AppState)
    : Result AppState :=
  match setItem_throws v with
  | Some e => Throw e
  | None =>
      Ok {| documents := documents st; localStorage := v; cacheWrites := S (cacheWrites st);
            currentSort := currentSort st; lastRenderedDocs := lastRenderedDocs st;
            lastRenderedTitle := lastRenderedTitle st; searchViewShown := searchViewShown st;
            searchInput := searchInput st; resultsView := resultsView st; toasts := toasts st;
            editErrors := editErrors st; attachmentInput := attachmentInput st;
            editAttachmentInput := editAttachmentInput st; remoteLog := remoteLog st;
            docNumberHint := docNumberHint st; editDocNumberHint := editDocNumberHint st |}
  end.

Definition set_currentSort (v : SortState) (st : AppState) : AppState :=
  {| documents := documents st; localStorage := localStorage st; cacheWrites := cacheWrites st;
     currentSort := v; lastRenderedDocs := lastRenderedDocs st;
     lastRenderedTitle := lastRenderedTitle st; searchViewShown := searchViewShown st;
     searchInput := searchInput st; resultsView := resultsView st; toasts := toasts st;
     editErrors := editErrors st; attachmentInput := attachmentInput st;
     editAttachmentInput := editAttachmentInput st; remoteLog := remoteLog st;
     docNumberHint := docNumberHint st; editDocNumberHint := editDocNumberHint st |}.

Definition set_lastRendered (docs : list Document) (title : string) (st : AppState) : AppState :=
  {| documents := documents st; localStorage := localStorage st; cacheWrites := cacheWrites st;
     currentSort := currentSort st; lastRenderedDocs := docs;
     lastRenderedTitle := title; searchViewShown := searchViewShown st;
     searchInput := searchInput st; resultsView := resultsView st; toasts := toasts st;
     editErrors := editErrors st; attachmentInput := attachmentInput st;
     editAttachmentInput := editAttachmentInput st; remoteLog := remoteLog st;
     docNumberHint := docNumberHint st; editDocNumberHint := editDocNumberHint st |}.

Definition set_resultsView (v : ResultsView) (st : AppState) : AppState :=
  {| documents := documents st; localStorage := localStorage st; cacheWrites := cacheWrites st;
     currentSort := currentSort st; lastRenderedDocs := lastRenderedDocs st;
     lastRenderedTitle := lastRenderedTitle st; searchViewShown := searchViewShown st;
     searchInput := searchInput st; resultsView := v; toasts := toasts st;
     editErrors := editErrors st; attachmentInput := attachmentInput st;
     editAttachmentInput := editAttachmentInput st; remoteLog := remoteLog st;
     docNumberHint := docNumberHint st; editDocNumberHint := editDocNumberHint st |}.

Definition showToast (message : string) (type : ToastType) (st : AppState) : AppState :=
  {| documents := documents st; localStorage := localStorage st; cacheWrites := cacheWrites st;
     currentSort := currentSort st; lastRenderedDocs := lastRenderedDocs st;
     lastRenderedTitle := lastRenderedTitle st; searchViewShown := searchViewShown st;
     searchInput := searchInput st; resultsView := resultsView st;
     toasts := toasts st ++ [(message, type)];
     editErrors := editErrors st; attachmentInput := attachmentInput st;
     editAttachmentInput := editAttachmentInput st; remoteLog := remoteLog st;
     docNumberHint := docNumberHint st; editDocNumberHint := editDocNumberHint st |}.

Definition set_editErrors (v : list (string * string)) (st : AppState) : AppState :=
  {| documents := documents st; localStorage := localStorage st; cacheWrites := cacheWrites st;
     currentSort := currentSort st; lastRenderedDocs := lastRenderedDocs st;
     lastRenderedTitle := lastRenderedTitle st; searchViewShown := searchViewShown st;
     searchInput := searchInput st; resultsView := resultsView st; toasts := toasts st;
     editErrors := v; attachmentInput := attachmentInput st;
     editAttachmentInput := editAttachmentInput st; remoteLog := remoteLog st;
     docNumberHint := docNumberHint st; editDocNumberHint := editDocNumberHint st |}.

Definition fileInput (i : FileInputId) (st : AppState) : FileInput :=
  match i with
  | attachment => attachmentInput st
  | edit_attachment => editAttachmentInput st
  end.

Definition set_fileInput (i : FileInputId) (v : FileInput) (st : AppState) : AppState :=
  {| documents := documents st; localStorage := localStorage st; cacheWrites := cacheWrites st;
     currentSort := currentSort st; lastRenderedDocs := lastRenderedDocs st;
     lastRenderedTitle := lastRenderedTitle st; searchViewShown := searchViewShown st;
     searchInput := searchInput st; resultsView := resultsView st; toasts := toasts st;
     editErrors := editErrors st;
     attachmentInput := match i with attachment => v | _ => attachmentInput st end;
     editAttachmentInput := match i with edit_attachment => v | _ => editAttachmentInput st end;
     remoteLog := remoteLog st;
     docNumberHint := docNumberHint st; editDocNumberHint := editDocNumberHint st |}.

Definition log_remote (tr : list Event) (st : AppState) : AppState :=
  {| documents := documents st; localStorage := localStorage st; cacheWrites := cacheWrites st;
     currentSort := currentSort st; lastRenderedDocs := lastRenderedDocs st;
     lastRenderedTitle := lastRenderedTitle st; searchViewShown := searchViewShown st;
     searchInput := searchInput st; resultsView := resultsView st; toasts := toasts st;
     editErrors := editErrors st; attachmentInput := attachmentInput st;
     editAttachmentInput := editAttachmentInput st; remoteLog := remoteLog st ++ tr;
     docNumberHint := docNumberHint st; editDocNumberHint := editDocNumberHint st |}.

Inductive HintId := docNumber_hint | edit_docNumber_hint.

Definition hint (i : HintId) (st : AppState) : string :=
  match i with
  | docNumber_hint => docNumberHint st
  | edit_docNumber_hint => editDocNumberHint st
  end.

Definition set_hint (i : HintId) (v : string) (st : AppState) : AppState :=
  {| documents := documents st; localStorage := localStorage st; cacheWrites := cacheWrites st;
     currentSort := currentSort st; lastRenderedDocs := lastRenderedDocs st;
     lastRenderedTitle := lastRenderedTitle st; searchViewShown := searchViewShown st;
     searchInput := searchInput st; resultsView := resultsView st; toasts := toasts st;
     editErrors := editErrors st; attachmentInput := attachmentInput st;
     editAttachmentInput := editAttachmentInput st; remoteLog := remoteLog st;
     docNumberHint := match i with docNumber_hint => v | _ => docNumberHint st end;
     editDocNumberHint := match i with edit_docNumber_hint => v | _ => editDocNumberHint st end |}.

(** ** Sorting *)

(** [Array.prototype.sort] with a comparator: a stable sort, in which
    a comparator result of [NaN] counts as [+0]. *)
Fixpoint insert_sorted {A} (cmp : A -> A -> option Z) (x : A) (l : list A) : list A :=
  match l with
  | [] => [x]
  | y :: l' => if default 0 (cmp x y) <=? 0 then x :: l else y :: insert_sorted cmp x l'
  end.

Definition Array_sort {A} (cmp : A -> A -> option Z) (l : list A) : list A :=
  fold_right (insert_sorted cmp) [] l.

(** [a - b] on numbers *)
Definition minus (a b : option Z) : option Z := x ← a; y ← b; Some (x - y).

(** [(a[key] as string) || ''] for the keys compared as strings. *)
Definition field (k : SortKey) (d : Document) : string :=
  match k with
  | K_createdAt => createdAt d
  | K_docNumber => docNumber d
  | K_docDate => docDate d
  | K_source => source d
  | K_subject => subject d
  end.

Definition TITLE_RECENT : string := "เอกสารล่าสุด 10 รายการ".
Definition TITLE_RESULTS : string := "ผลการค้นหา".
Definition NO_FILE_SELECTED : string := "ยังไม่ได้เลือกไฟล์".
(** The text [setupMaxLengthWarning] gives the hint of an input with
    [maxlength="50"]. *)
Definition HINT_MAX_LENGTH : string := "สามารถกรอกได้สูงสุด 50 ตัวอักษร".

Section Engine.
Context `{JsHost}.

(** The comparator of [renderResultsTable], lines 428-448. *)
Definition compareDocs (cs : SortState) (a b : Document) : option Z :=
  match key cs with
  | K_docDate =>
      let dateA := beDateToTimestamp (docDate a) in
      let dateB := beDateToTimestamp (docDate b) in
      match direction cs with asc => minus dateA dateB | desc => minus dateB dateA end
  | K_createdAt =>
      let dateA := Date_parse (createdAt a) in
      let dateB := Date_parse (createdAt b) in
      match direction cs with asc => minus dateA dateB | desc => minus dateB dateA end
  | k =>
      let valA := field k a in
      let valB := field k b in
      match direction cs with
      | asc => Some (localeCompare_th valA valB)
      | desc => Some (localeCompare_th valB valA)
      end
  end.

Definition getSortAttr (cs : SortState) (k : SortKey) : option Direction :=
  if decide (key cs = k) then Some (direction cs) else None.

Definition renderResultsTable (docs : list Document) (title : string) (st : AppState)
    : AppState :=
  let st := set_lastRendered docs title st in
  match docs with
  | [] => set_resultsView (VNotFound title) st
  | _ =>
      let sortedDocs := Array_sort (compareDocs (currentSort st)) docs in
      set_resultsView
        (VTable title
           (List.map (fun k => (k, getSortAttr (currentSort st) k))
              [K_docNumber; K_docDate; K_source; K_subject])
           sortedDocs)
        st
  end.

Definition renderRecentDocuments (st : AppState) : AppState :=
  let recentDocs :=
    firstn 10
      (Array_sort
         (fun a b => minus (Date_parse (createdAt b)) (Date_parse (createdAt a)))
         (documents st)) in
  match documents st with
  | [] => set_resultsView VNoDocuments st
  | _ =>
      (* Reset sort to default when showing recent docs *)
      let st := set_currentSort {| key := K_createdAt; direction := desc |} st in
      renderResultsTable recentDocs TITLE_RECENT st
  end.

(** The predicate of the [filter] of [handleSearch], lines 518-525. *)
Definition matches (query : string) (doc : Document) : bool :=
  includes (toLowerCase (subject doc)) query
  || includes (toLowerCase (docNumber doc)) query
  || includes (toLowerCase (source doc)) query
  || includes (toLowerCase (notes doc)) query
  || match fileName doc with
     | Some fn => negb (String.eqb fn "") && includes (toLowerCase fn) query
     | None => false
     end
  || existsb (fun tag => includes (toLowerCase tag) query) (tags doc).

Definition handleSearch (st : AppState) : AppState :=
  let query := trim (toLowerCase (searchInput st)) in
  if String.eqb query "" then renderRecentDocuments st
  else
    let results := List.filter (matches query) (documents st) in
    renderResultsTable results TITLE_RESULTS st.

(** Lines 88-96: after any change, re-render the current view. *)
Definition rerender (st : AppState) : AppState :=
  if searchViewShown st then
    if negb (String.eqb (trim (searchInput st)) "") then handleSearch st
    else renderRecentDocuments st
  else st.

(** Lines 86-97.  The write to the cache comes first: when it throws,
    nothing is rendered and the caller's [catch] takes over. *)
Definition saveDocuments (st : AppState) : Result AppState :=
  do st <- localStorage_setItem (documents st) st;
  Ok (rerender st).

(** The click listener of the sortable headers, lines 747-763.  A
    header exists only while the table is displayed; [sortKey] is its
    [data-sort-key] and [currentDirection] its [data-sort-direction]. *)
Definition sortHeaderClick (sortKey : SortKey) (st : AppState) : AppState :=
  match resultsView st with
  | VTable _ headers _ =>
      match List.find (fun h => bool_decide (fst h = sortKey)) headers with
      | Some (_, currentDirection) =>
          let dir :=
            if bool_decide (key (currentSort st) = sortKey)
               && bool_decide (currentDirection = Some desc)
            then asc else desc in
          let st := set_currentSort {| key := sortKey; direction := dir |} st in
          renderResultsTable (lastRenderedDocs st) (lastRenderedTitle st) st
      | None => st
      end
  | _ => st
  end.

End Engine.

(** The rows on display. *)
Definition displayed (st : AppState) : list Document :=
  match resultsView st with
  | VTable _ _ rows => rows
  | _ => []
  end.

(** ** Handlers *)

Definition MSG_FILE_TOO_LARGE : string := "ขนาดไฟล์เกิน 50MB".
Definition MSG_FILE_TYPE : string := "ชนิดไฟล์ไม่ถูกต้อง (ต้องเป็นรูปภาพหรือ PDF)".
Definition MSG_REQ_DOCNUMBER : string := "กรุณากรอกเลขที่หนังสือ".
Definition MSG_REQ_DOCDATE : string := "กรุณากรอกวันที่ให้ถูกต้อง (วว/ดด/ปปปป)".
Definition MSG_REQ_SOURCE : string := "กรุณากรอกที่มาหนังสือ".
Definition MSG_REQ_SUBJECT : string := "กรุณากรอกเรื่องของหนังสือ".
Definition MSG_UPDATED : string := "แก้ไขเอกสารเรียบร้อยแล้ว".
Definition MSG_UPDATE_FAILED : string := "เกิดข้อผิดพลาดในการซิงค์ข้อมูล".
Definition MSG_DELETED : string := "ลบเอกสารเรียบร้อยแล้ว".
Definition MSG_DELETE_FAILED : string := "เกิดข้อผิดพลาดในการลบเอกสาร".

Definition maxSize : Z := 50 * 1024 * 1024.

Definition allowedTypes : list string :=
  ["image/jpeg"; "image/png"; "image/gif"; "application/pdf"].

(** The [change] listener of the two file inputs, lines 179-213;
    [selected] is the first of the files the user has just chosen. *)
Definition handleFileChange (i : FileInputId) (selected : option File) (st : AppState)
    : AppState :=
  let rejected message :=
    {| files := None; displayArea := NO_FILE_SELECTED;
       errorElement := message; invalid := true |} in
  set_fileInput i
    match selected with
    | Some file =>
        if maxSize <? file_size file then rejected MSG_FILE_TOO_LARGE
        else if negb (bool_decide (file_type file ∈ allowedTypes)) then rejected MSG_FILE_TYPE
        else {| files := Some file; displayArea := file_name file;
                errorElement := ""; invalid := false |}
    | None =>
        {| files := None; displayArea := NO_FILE_SELECTED;
           errorElement := ""; invalid := false |}
    end
    st.

(** The text fields of the edit form. *)
Record EditForm := {
  edit_docId : string;
  edit_docNumber : string;
  edit_docDate : string;
  edit_source : string;
  edit_subject : string;
  edit_notes : string
}.

(** Lines 327-341: the messages written into [.error-message]
    elements, those of the date, the source and the subject. *)
Definition editInlineErrors (form : EditForm) : list (string * string) :=
  (if String.eqb (trim (edit_docDate form)) ""
      || negb (dateRegex_test (trim (edit_docDate form)))
   then [("edit-docDate", MSG_REQ_DOCDATE)] else [])
  ++ (if String.eqb (trim (edit_source form)) "" then [("edit-source", MSG_REQ_SOURCE)]
      else [])
  ++ (if String.eqb (trim (edit_subject form)) "" then [("edit-subject", MSG_REQ_SUBJECT)]
      else []).

(** Lines 322-343: the inputs marked invalid, each with the text
    written to the element that follows it; the form is valid when
    there is none.  The element that follows [#edit-docNumber] is the
    max-length hint, not an [.error-message]. *)
Definition validateEditForm (form : EditForm) : list (string * string) :=
  (if String.eqb (trim (edit_docNumber form)) "" then [("edit-docNumber", MSG_REQ_DOCNUMBER)]
   else [])
  ++ editInlineErrors form.

(** [error instanceof Error ? error.message : fallback] *)
Definition errorMessage (e : Thrown) (fallback : string) : string :=
  match e with
  | JsError _ message => message
  | NonError => fallback
  end.

(** Lines 355-375: the document sent to the remote store and, when the
    exchange succeeds, stored in place of [old]. *)
Definition updatedDocData (old : Document) (form : EditForm)
    (file : option (File * string)) : Document :=
  {| id := id old;
     docNumber := edit_docNumber form;
     source := edit_source form;
     subject := edit_subject form;
     docDate := trim (edit_docDate form);
     notes := edit_notes form;
     tags := tags old;
     createdAt := createdAt old;
     fileName := match file with Some (f, _) => Some (file_name f) | None => fileName old end;
     fileContent := match file with Some (_, b64) => Some b64 | None => fileContent old end;
     fileType := match file with Some (f, _) => Some (file_type f) | None => fileType old end;
     (* Remove legacy second file properties if they exist *)
     fileName2 := None;
     fileContent2 := None;
     fileType2 := None |}.

(** [documents.findIndex(d => d.id === docId)] and
    [documents.find(d => d.id === docId)] *)
Definition findIndex_id (docId : string) (docs : list Document) : option nat :=
  fst <$> list_find (fun d => id d = docId) docs.

Definition find_id (docId : string) (docs : list Document) : option Document :=
  snd <$> list_find (fun d => id d = docId) docs.

(** Lines 365-370: the new file, if one is chosen, with its base64
    content. *)
Definition encode_attachment (fi : FileInput) : Result (option (File * string)) :=
  match files fi with
  | Some file => do b64 <- file_base64 file; Ok (Some (file, b64))
  | None => Ok None
  end.

Section Handlers.
Context `{JsHost}.

(** Lines 303-394.  The second component is the rejection of the
    handler's own promise, when [fileToBase64] rejects.  An error
    thrown by [saveDocuments] is caught like one of the remote call,
    after the entry has been replaced. *)
Definition handleUpdateDocument (net : Network) (form : EditForm) (st : AppState)
    : AppState * option Thrown :=
  (* inline validation: previous messages and marks are cleared *)
  let fi := editAttachmentInput st in
  let st :=
    set_fileInput edit_attachment
      {| files := files fi; displayArea := displayArea fi;
         errorElement := ""; invalid := false |} st in
  let st := set_editErrors (editInlineErrors form) st in
  let st :=
    set_hint edit_docNumber_hint
      (if String.eqb (trim (edit_docNumber form)) "" then MSG_REQ_DOCNUMBER
       else hint edit_docNumber_hint st) st in
  match validateEditForm form with
  | _ :: _ => (st, None)
  | [] =>
      match findIndex_id (edit_docId form) (documents st) with
      | None => (st, None)
      | Some docIndex =>
          match documents st !! docIndex with
          | None => (st, None)
          | Some old =>
              (* Handle file update *)
              match encode_attachment (editAttachmentInput st) with
              | Throw e => (st, Some e)
              | Ok file =>
                  let doc := updatedDocData old form file in
                  let '(tr, r) := execute net "update" (PDocument doc) in
                  let st := log_remote tr st in
                  match r with
                  | Ok _ =>
                      let st := set_documents (<[docIndex := doc]> (documents st)) st in
                      match saveDocuments st with
                      | Ok st =>
                          (* form.reset() *)
                          let fi := editAttachmentInput st in
                          let st :=
                            set_fileInput edit_attachment
                              {| files := None; displayArea := displayArea fi;
                                 errorElement := errorElement fi; invalid := invalid fi |} st in
                          (showToast MSG_UPDATED success st, None)
                      | Throw e =>
                          (showToast (errorMessage e MSG_UPDATE_FAILED) error st, None)
                      end
                  | Throw e =>
                      (showToast (errorMessage e MSG_UPDATE_FAILED) error st, None)
                  end
              end
          end
      end
  end.

(** Lines 396-412; [confirmed] is the answer to the [confirm] dialog. *)
Definition handleDeleteDocument (net : Network) (confirmed : bool) (docId : string)
    (st : AppState) : AppState :=
  match find_id docId (documents st) with
  | None => st
  | Some doc =>
      if confirmed then
        let '(tr, r) := execute net "delete" (PId docId) in
        let st := log_remote tr st in
        match r with
        | Ok _ =>
            let st :=
              set_documents
                (List.filter (fun d => negb (String.eqb (id d) docId)) (documents st)) st in
            match saveDocuments st with
            | Ok st => showToast MSG_DELETED success st
            | Throw e => showToast (errorMessage e MSG_DELETE_FAILED) error st
            end
        | Throw e => showToast (errorMessage e MSG_DELETE_FAILED) error st
        end
      else st
  end.

(** ** The collection as the remote read leaves it

    The initial read assigns [result.data] to [documents] as it
    comes (lines 771-775), so at run time the elements of the
    collection are arbitrary JSON values. *)

Definition initialSync_documents (net : Network) (documents : option JsValue)
    : option JsValue :=
  match snd (execute net "read" PEmpty) with
  | Ok sheetData => sheetData
  | Throw _ => documents
  end.

(** [v.toLowerCase()] for a property value [v] *)
Definition call_toLowerCase (v : option JsValue) : Result string :=
  match v with
  | Some (JStr s) => Ok (toLowerCase s)
  | _ => engine_throw TypeErrorK
  end.

(** [doc.k.toLowerCase().includes(query)] *)
Definition prop_includes (doc : JsValue) (k : string) (query : string) : Result bool :=
  do v <- get_prop doc k;
  do s <- call_toLowerCase v;
  Ok (includes s query).

(** [a || b] with [b] evaluated only when [a] is false *)
Definition or_else (a : Result bool) (b : Result bool) : Result bool :=
  do x <- a; if x then Ok true else b.

(** [l.some(p)] *)
Fixpoint some_raw (p : JsValue -> Result bool) (l : list JsValue) : Result bool :=
  match l with
  | [] => Ok false
  | x :: l' => or_else (p x) (some_raw p l')
  end.

(** [l.filter(p)] *)
Fixpoint filter_raw (p : JsValue -> Result bool) (l : list JsValue)
    : Result (list JsValue) :=
  match l with
  | [] => Ok []
  | x :: l' =>
      do keep <- p x;
      do rest <- filter_raw p l';
      Ok (if keep then x :: rest else rest)
  end.

(** The predicate of lines 518-525 on an arbitrary value. *)
Definition raw_matches (query : string) (doc : JsValue) : Result bool :=
  or_else (prop_includes doc "subject" query)
    (or_else (prop_includes doc "docNumber" query)
       (or_else (prop_includes doc "source" query)
          (or_else (prop_includes doc "notes" query)
             (or_else
                (do fn <- get_prop doc "fileName";
                 if truthy fn
                 then do s <- call_toLowerCase fn; Ok (includes s query)
                 else Ok false)
                (do tags <- get_prop doc "tags";
                 match tags with
                 | Some (JArr l) =>
                     some_raw
                       (fun tag => do s <- call_toLowerCase (Some tag); Ok (includes s query))
                       l
                 | _ => engine_throw TypeErrorK
                 end))))).

(** Lines 509-525 on the run-time collection: the documents passed
    to [renderResultsTable], [None] when the query is empty and the
    recent documents are shown instead. *)
Definition raw_handleSearch (documents : option JsValue) (searchInput : string)
    : Result (option (list JsValue)) :=
  let query := trim (toLowerCase searchInput) in
  if String.eqb query "" then Ok None
  else
    match documents with
    | Some (JArr docs) => do results <- filter_raw (raw_matches query) docs; Ok (Some results)
    | _ => engine_throw TypeErrorK
    end.

End Handlers.

(** The JSON value of a document: what [JSON.stringify] writes and
    [JSON.parse] reads back. *)
Definition opt_prop (k : string) (v : option string) (o : gmap string JsValue)
    : gmap string JsValue :=
  match v with
  | Some s => <[k := JStr s]> o
  | None => o
  end.

Definition toJs (d : Document) : JsValue :=
  JObj
    (opt_prop "fileName" (fileName d)
       (opt_prop "fileContent" (fileContent d)
          (opt_prop "fileType" (fileType d)
             (opt_prop "fileName2" (fileName2 d)
                (opt_prop "fileContent2" (fileContent2 d)
                   (opt_prop "fileType2" (fileType2 d)
                      (<["id" := JStr (id d)]>
                         (<["docNumber" := JStr (docNumber d)]>
                            (<["source" := JStr (source d)]>
                               (<["subject" := JStr (subject d)]>
                                  (<["docDate" := JStr (docDate d)]>
                                     (<["notes" := JStr (notes d)]>
                                        (<["tags" := JArr (JStr <$> tags d)]>
                                           (<["createdAt" := JStr (createdAt d)]> ∅)))))))))))))).

(** ** A host for the worked examples

    [JSON.parse] on the three bodies the examples use, [Date.parse] on
    the format [toISOString] writes (YYYY-MM-DDTHH:mm:ss.sssZ), byte
    order for [localeCompare], the zone of Asia/Bangkok (UTC+7), and a
    storage that takes every write. *)

Definition BODY_OK : string :=
  "{" +:+ dquote +:+ "success" +:+ dquote +:+ ":true}".
Definition BODY_REFUSED : string :=
  "{" +:+ dquote +:+ "success" +:+ dquote +:+ ":false,"
  +:+ dquote +:+ "error" +:+ dquote +:+ ":" +:+ dquote +:+ "Sheet not found" +:+ dquote +:+ "}".
Definition BODY_REFUSED_SILENT : string :=
  "{" +:+ dquote +:+ "success" +:+ dquote +:+ ":false}".

Definition example_JSON_parse (s : string) : option JsValue :=
  if String.eqb s BODY_OK then Some (JObj {["success" := JBool true]})
  else if String.eqb s BODY_REFUSED
  then Some (JObj (<["success" := JBool false]> {["error" := JStr "Sheet not found"]}))
  else if String.eqb s BODY_REFUSED_SILENT then Some (JObj {["success" := JBool false]})
  else None.

Definition all_digits (s : string) : option Z :=
  if forallb is_digit (list_ascii_of_string s) then leading_digits s None else None.

Definition iso_parse (s : string) : option Z :=
  if (String.length s =? 24)%nat
     && String.eqb (substring 4 1 s) "-" && String.eqb (substring 7 1 s) "-"
     && String.eqb (substring 10 1 s) "T" && String.eqb (substring 13 1 s) ":"
     && String.eqb (substring 16 1 s) ":" && String.eqb (substring 19 1 s) "."
     && String.eqb (substring 23 1 s) "Z"
  then
    y ← all_digits (substring 0 4 s);
    mo ← all_digits (substring 5 2 s);
    d ← all_digits (substring 8 2 s);
    h ← all_digits (substring 11 2 s);
    mi ← all_digits (substring 14 2 s);
    sec ← all_digits (substring 17 2 s);
    ms ← all_digits (substring 20 3 s);
    TimeClip (MakeDay y (mo - 1) d * msPerDay + h * 3600000 + mi * 60000 + sec * 1000 + ms)
  else None.

Definition byte_order (a b : string) : Z :=
  match String.compare a b with
  | Eq => 0
  | Lt => -1
  | Gt => 1
  end.

Definition example_host : JsHost :=
  {| JSON_parse := example_JSON_parse;
     Date_parse := iso_parse;
     localeCompare_th := byte_order;
     LocalTZA := 7 * 3600000;
     engine_message := fun _ => "";
     setItem_throws := fun _ => None |}.

(** The same host with its storage full: every write to the cache
    throws. *)
Definition MSG_QUOTA : string := "The quota has been exceeded.".

Definition full_storage_host : JsHost :=
  {| JSON_parse := example_JSON_parse;
     Date_parse := iso_parse;
     localeCompare_th := byte_order;
     LocalTZA := 7 * 3600000;
     engine_message := fun _ => "";
     setItem_throws := fun _ => Some (JsError ErrorK MSG_QUOTA) |}.

Definition respond (body : string) : FetchOutcome :=
  Resolved {| ok := true; status := 200; text := Ok body |}.

Definition http_status (code : Z) : FetchOutcome :=
  Resolved {| ok := false; status := code; text := Ok "" |}.

Definition failed_to_fetch : FetchOutcome :=
  Rejected (JsError TypeErrorK "Failed to fetch").

(** Every exchange has the same outcome. *)
Definition always (o : FetchOutcome) : Network := fun _ => o.

Definition mkDoc (i number src subj date note : string) (tgs : list string) (created : string)
    : Document :=
  {| id := i; docNumber := number; source := src; subject := subj; docDate := date;
     notes := note; tags := tgs; createdAt := created;
     fileName := None; fileContent := None; fileType := None;
     fileName2 := None; fileContent2 := None; fileType2 := None |}.

Definition no_file : FileInput :=
  {| files := None; displayArea := NO_FILE_SELECTED; errorElement := ""; invalid := false |}.

(** The state after start-up with [docs] in the local cache. *)
Definition initial_state (docs : list Document) : AppState :=
  {| documents := docs; localStorage := docs; cacheWrites := 0;
     currentSort := {| key := K_createdAt; direction := desc |};
     lastRenderedDocs := []; lastRenderedTitle := "";
     searchViewShown := false; searchInput := "";
     resultsView := VInitial; toasts := []; editErrors := [];
     attachmentInput := no_file; editAttachmentInput := no_file;
     remoteLog := [];
     docNumberHint := HINT_MAX_LENGTH; editDocNumberHint := HINT_MAX_LENGTH |}.

Definition with_search (input : string) (st : AppState) : AppState :=
  {| documents := documents st; localStorage := localStorage st; cacheWrites := cacheWrites st;
     currentSort := currentSort st; lastRenderedDocs := lastRenderedDocs st;
     lastRenderedTitle := lastRenderedTitle st; searchViewShown := true;
     searchInput := input; resultsView := resultsView st; toasts := toasts st;
     editErrors := editErrors st; attachmentInput := attachmentInput st;
     editAttachmentInput := editAttachmentInput st; remoteLog := remoteLog st;
     docNumberHint := docNumberHint st; editDocNumberHint := editDocNumberHint st |}.

(** ** Predicates of the specification *)

(** [st'] differs from [st] in what is rendered only. *)
Definition view_change (st st' : AppState) : Prop :=
  documents st' = documents st
  /\ localStorage st' = localStorage st
  /\ cacheWrites st' = cacheWrites st
  /\ toasts st' = toasts st
  /\ remoteLog st' = remoteLog st
  /\ editErrors st' = editErrors st
  /\ attachmentInput st' = attachmentInput st
  /\ editAttachmentInput st' = editAttachmentInput st
  /\ searchInput st' = searchInput st
  /\ searchViewShown st' = searchViewShown st.




(** C8 as the specification words it: an absent id leaves collection,
    cache and remote store alone, and the user is notified. *)
Definition not_found_claim_as_stated : Prop :=
  forall (host : JsHost) net form confirmed docId st,
    find_id docId (documents st) = None ->
    (let st' := handleDeleteDocument net confirmed docId st in
     documents st' = documents st /\ localStorage st' = localStorage st
     /\ cacheWrites st' = cacheWrites st /\ remoteLog st' = remoteLog st
     /\ toasts st' <> toasts st)
    /\ (edit_docId form = docId -> validateEditForm form = [] ->
        let st' := fst (handleUpdateDocument net form st) in
        documents st' = documents st /\ localStorage st' = localStorage st
        /\ cacheWrites st' = cacheWrites st /\ remoteLog st' = remoteLog st
        /\ toasts st' <> toasts st).

(** The comparator [cmp] orders the elements of [l] by [k], largest
    first. *)
Definition orders_desc {A} (cmp : A -> A -> option Z) (k : A -> Z) (l : list A) : Prop :=
  forall x y, x ∈ l -> y ∈ l -> (default 0 (cmp x y) <= 0 <-> k y <= k x).



(** The creation time of a document whose [createdAt] is a date. *)
Definition created `{JsHost} (d : Document) : Z := default 0 (Date_parse (createdAt d)).




(** The keys of the sortable headers. *)
Definition sortable_keys : list SortKey := [K_docNumber; K_docDate; K_source; K_subject].

Definition flip_direction (d : Direction) : Direction :=
  match d with
  | asc => desc
  | desc => asc
  end.

(** The table on display is the rendering of [lastRenderedDocs] under
    [currentSort]: what [renderResultsTable] leaves behind. *)
Definition view_in_sync `{JsHost} (st : AppState) : Prop :=
  match resultsView st with
  | VTable title headers rows =>
      title = lastRenderedTitle st
      /\ headers = List.map (fun k => (k, getSortAttr (currentSort st) k)) sortable_keys
      /\ rows = Array_sort (compareDocs (currentSort st)) (lastRenderedDocs st)
      /\ lastRenderedDocs st <> []
  | _ => True
  end.

Definition table_shown (st : AppState) : Prop :=
  exists title headers rows, resultsView st = VTable title headers rows.

(** The file input [i] holds [file] after the change. *)
Definition accepted (i : FileInputId) (file : File) (st' : AppState) : Prop :=
  files (fileInput i st') = Some file.

Definition other_input (i : FileInputId) : FileInputId :=
  match i with
  | attachment => edit_attachment
  | edit_attachment => attachment
  end.








(** ** Calendar dates *)

Definition two_digits (a b : ascii) : Z := 10 * digit_value a + digit_value b.

Definition four_digits (a b c d : ascii) : Z :=
  1000 * digit_value a + 100 * digit_value b + 10 * digit_value c + digit_value d.

(** The day, the month and the Buddhist-Era year that a string of the
    form DD/MM/YYYY writes. *)
Definition be_fields (s : string) : option (Z * Z * Z) :=
  match s with
  | String d1 (String d2 (String _ (String m1 (String m2 (String _
      (String y1 (String y2 (String y3 (String y4 EmptyString))))))))) =>
      if dateRegex_test s
      then Some (two_digits d1 d2, two_digits m1 m2, four_digits y1 y2 y3 y4)
      else None
  | _ => None
  end.

Definition days_in_month (y m : Z) : Z :=
  match m with
  | 2 => if DaysInYear y =? 366 then 29 else 28
  | 4 | 6 | 9 | 11 => 30
  | _ => 31
  end.

(** Day [d] of month [m] of year [y] exists in the Gregorian calendar. *)
Definition calendar_date (y m d : Z) : Prop :=
  1 <= m <= 12 /\ 1 <= d <= days_in_month y m.

(** Year, month, day: the first date is earlier than the second. *)
Definition calendar_lt (a b : Z * Z * Z) : Prop :=
  let '(y1, m1, d1) := a in
  let '(y2, m2, d2) := b in
  y1 < y2 \/ (y1 = y2 /\ (m1 < m2 \/ (m1 = m2 /\ d1 < d2))).

(** The Gregorian date of a Buddhist-Era date string: 543 years less. *)
Definition gregorian_of (s : string) : option (Z * Z * Z) :=
  '(d, m, y) ← be_fields s;
  if decide (calendar_date (y - 543) m d) then Some (y - 543, m, d) else None.

(** ** The other handlers: date input, save form, edit modal, tabs *)

(** [s.slice(0, n)] and [s.slice(n)] *)
Fixpoint take_chars (n : nat) (s : string) : string :=
  match n, s with
  | S n', String c s' => String c (take_chars n' s')
  | _, _ => EmptyString
  end.

Fixpoint drop_chars (n : nat) (s : string) : string :=
  match n, s with
  | S n', String _ s' => drop_chars n' s'
  | _, _ => s
  end.

(** [s.slice(a, b)] for [a <= b] *)
Definition slice (a b : nat) (s : string) : string := take_chars (b - a) (drop_chars a s).

(** [s.replace(/\D/g, '')] *)
Fixpoint only_digits (s : string) : string :=
  match s with
  | EmptyString => EmptyString
  | String c s' => if is_digit c then String c (only_digits s') else only_digits s'
  end.

(** The value a single-line text input keeps of [s]: the line breaks
    (LF, CR) are stripped. *)
Fixpoint strip_newlines (s : string) : string :=
  match s with
  | EmptyString => EmptyString
  | String c s' =>
      if Ascii.eqb c "010" || Ascii.eqb c "013" then strip_newlines s'
      else String c (strip_newlines s')
  end.

(** The value a textarea gives back of [s]: CR LF and a lone CR
    become LF. *)
Fixpoint normalize_newlines (s : string) : string :=
  match s with
  | EmptyString => EmptyString
  | String c s' =>
      if Ascii.eqb c "013" then
        match s' with
        | String c' _ =>
            if Ascii.eqb c' "010" then normalize_newlines s'
            else String "010" (normalize_newlines s')
        | EmptyString => String "010" EmptyString
        end
      else String c (normalize_newlines s')
  end.

(** The [input] listener of the two date inputs, lines 111-122: the
    new value of the input, from the value the user has typed. *)
Definition formatDateInput (input : string) : string :=
  let value := only_digits input in
  let value :=
    if (2 <? String.length value)%nat
    then slice 0 2 value +:+ "/" +:+ drop_chars 2 value
    else value in
  let value :=
    if (5 <? String.length value)%nat
    then slice 0 5 value +:+ "/" +:+ slice 5 9 value
    else value in
  value.

Definition MSG_SAVED : string := "บันทึกเอกสารเรียบร้อยแล้ว!".
Definition MSG_SAVE_FAILED : string := "เกิดข้อผิดพลาดในการบันทึกเอกสาร".

(** The text fields of the save form. *)
Record SaveForm := {
  save_docNumber : string;
  save_docDate : string;
  save_source : string;
  save_subject : string;
  save_notes : string
}.

(** Lines 555-569: the messages written into [.error-message]
    elements, those of the date, the source and the subject. *)
Definition saveInlineErrors (form : SaveForm) : list (string * string) :=
  (if String.eqb (trim (save_docDate form)) ""
      || negb (dateRegex_test (trim (save_docDate form)))
   then [("docDate", MSG_REQ_DOCDATE)] else [])
  ++ (if String.eqb (trim (save_source form)) "" then [("source", MSG_REQ_SOURCE)]
      else [])
  ++ (if String.eqb (trim (save_subject form)) "" then [("subject", MSG_REQ_SUBJECT)]
      else []).

(** Lines 550-571: the inputs marked invalid, each with the text
    written to the element that follows it; the form is valid when
    there is none.  The element that follows [#docNumber] is the
    max-length hint, not an [.error-message]. *)
Definition validateSaveForm (form : SaveForm) : list (string * string) :=
  (if String.eqb (trim (save_docNumber form)) "" then [("docNumber", MSG_REQ_DOCNUMBER)]
   else [])
  ++ saveInlineErrors form.

(** What the save handler takes from outside the page: the outcome of
    the tagging request ([response.text], or what the request rejects
    with), the value of [Date.now()], the text of
    [new Date().toISOString()], and the exchanges with the remote
    store. *)
Record SaveEnv := {
  tagging : Result string;
  now : Z;
  nowISO : string;
  store : Network
}.

(** The strings of an array of strings. *)
Fixpoint strings_of (l : list JsValue) : option (list string) :=
  match l with
  | [] => Some []
  | JStr s :: l' => cons s <$> strings_of l'
  | _ :: _ => None
  end.

(** [resultJson.keywords || []] as a value of the declared type
    [string[]]; [None] when the value is not of that type. *)
Definition keywords_tags (keywords : option JsValue) : option (list string) :=
  match keywords with
  | Some (JArr l) => strings_of l
  | _ => if truthy keywords then None else Some []
  end.

(** Lines 623-639: the new document. *)
Definition newDocument (env : SaveEnv) (form : SaveForm) (tgs : list string)
    (file : option (File * string)) : Document :=
  {| id := "doc_" +:+ string_of_Z (now env);
     docNumber := trim (save_docNumber form);
     source := trim (save_source form);
     subject := trim (save_subject form);
     docDate := trim (save_docDate form);
     notes := trim (save_notes form);
     tags := tgs;
     createdAt := nowISO env;
     fileName := match file with Some (f, _) => Some (file_name f) | None => None end;
     fileContent := match file with Some (_, b64) => Some b64 | None => None end;
     fileType := match file with Some (f, _) => Some (file_type f) | None => None end;
     fileName2 := None;
     fileContent2 := None;
     fileType2 := None |}.

Definition set_searchViewShown (v : bool) (st : AppState) : AppState :=
  {| documents := documents st; localStorage := localStorage st; cacheWrites := cacheWrites st;
     currentSort := currentSort st; lastRenderedDocs := lastRenderedDocs st;
     lastRenderedTitle := lastRenderedTitle st; searchViewShown := v;
     searchInput := searchInput st; resultsView := resultsView st; toasts := toasts st;
     editErrors := editErrors st; attachmentInput := attachmentInput st;
     editAttachmentInput := editAttachmentInput st; remoteLog := remoteLog st;
     docNumberHint := docNumberHint st; editDocNumberHint := editDocNumberHint st |}.

(** The user types [input] in the search box. *)
Definition set_searchInput (input : string) (st : AppState) : AppState :=
  {| documents := documents st; localStorage := localStorage st; cacheWrites := cacheWrites st;
     currentSort := currentSort st; lastRenderedDocs := lastRenderedDocs st;
     lastRenderedTitle := lastRenderedTitle st; searchViewShown := searchViewShown st;
     searchInput := input; resultsView := resultsView st; toasts := toasts st;
     editErrors := editErrors st; attachmentInput := attachmentInput st;
     editAttachmentInput := editAttachmentInput st; remoteLog := remoteLog st;
     docNumberHint := docNumberHint st; editDocNumberHint := editDocNumberHint st |}.

(** The three steps of the save handler that can throw inside its
    [try]: the keywords of the tagging response (lines 603-621), the
    content of the chosen file (lines 634-639), the remote create
    (line 641). *)
Inductive SaveStep :=
| Tagged (tgs : list string)
| Untyped
| Failed (e : Thrown).

Section MoreHandlers.
Context `{JsHost}.

Definition read_keywords (env : SaveEnv) : SaveStep :=
  match tagging env with
  | Throw e => Failed e
  | Ok text =>
      match JSON_parse text with
      | None => Failed (JsError SyntaxErrorK (engine_message SyntaxErrorK))
      | Some resultJson =>
          match get_prop resultJson "keywords" with
          | Throw e => Failed e
          | Ok keywords =>
              match keywords_tags keywords with
              | Some tgs => Tagged tgs
              | None => Untyped
              end
          end
      end
  end.

(** Lines 530-653.  The result is the new state with the text written
    into the [.error-message] elements of the save form; it is [None]
    when the tagging service answers with keywords that are not an
    array of strings, and the document built from them is not a
    [Document].  An error thrown by [saveDocuments] is caught like one
    of the remote call, after the document has been put in front. *)
Definition handleSaveDocument (env : SaveEnv) (form : SaveForm) (st : AppState)
    : option (AppState * list (string * string)) :=
  (* inline validation: previous messages and marks are cleared *)
  let fi := attachmentInput st in
  let st :=
    set_fileInput attachment
      {| files := files fi; displayArea := displayArea fi;
         errorElement := ""; invalid := false |} st in
  let st :=
    set_hint docNumber_hint
      (if String.eqb (trim (save_docNumber form)) "" then MSG_REQ_DOCNUMBER
       else hint docNumber_hint st) st in
  match validateSaveForm form with
  | _ :: _ => Some (st, saveInlineErrors form)
  | [] =>
      let fail (e : Thrown) (st : AppState) :=
        Some (showToast (errorMessage e MSG_SAVE_FAILED) error st, []) in
      match read_keywords env with
      | Untyped => None
      | Failed e => fail e st
      | Tagged tgs =>
          match encode_attachment (attachmentInput st) with
          | Throw e => fail e st
          | Ok file =>
              let newDoc := newDocument env form tgs file in
              let '(tr, r) := execute (store env) "create" (PDocument newDoc) in
              let st := log_remote tr st in
              match r with
              | Throw e => fail e st
              | Ok _ =>
                  (* documents.unshift(newDoc) *)
                  let st := set_documents (newDoc :: documents st) st in
                  match saveDocuments st with
                  | Throw e => fail e st
                  | Ok st =>
                      let st := showToast MSG_SAVED success st in
                      (* form.reset() and the reset of the file display *)
                      Some (set_fileInput attachment
                              {| files := None; displayArea := NO_FILE_SELECTED;
                                 errorElement := errorElement (attachmentInput st);
                                 invalid := invalid (attachmentInput st) |} st, [])
                  end
              end
          end
      end
  end.

(** Lines 278-300: the values the edit form holds once it is opened,
    [None] when no document has the id.  The single-line inputs keep
    the value set without its line breaks, the textarea gives it back
    with its line breaks normalized. *)
Definition showEditModal (docId : string) (st : AppState) : option EditForm * AppState :=
  match find_id docId (documents st) with
  | None => (None, st)
  | Some doc =>
      let fileDisplay :=
        match fileName doc with
        | Some fn => if String.eqb fn "" then NO_FILE_SELECTED else fn
        | None => NO_FILE_SELECTED
        end in
      (Some {| edit_docId := id doc;
               edit_docNumber := strip_newlines (docNumber doc);
               edit_docDate := strip_newlines (docDate doc);
               edit_source := strip_newlines (source doc);
               edit_subject := normalize_newlines (subject doc);
               edit_notes := strip_newlines (notes doc) |},
       set_fileInput edit_attachment
         {| files := None; displayArea := fileDisplay;
            errorElement := errorElement (editAttachmentInput st);
            invalid := invalid (editAttachmentInput st) |} st)
  end.

(** Lines 680-684: the two tab buttons. *)
Definition storeTabClick (st : AppState) : AppState := set_searchViewShown false st.

Definition searchTabClick (st : AppState) : AppState :=
  handleSearch (set_searchViewShown true st).

(** Lines 692-695: the search form is submitted with [input] typed. *)
Definition searchSubmit (input : string) (st : AppState) : AppState :=
  handleSearch (set_searchInput input st).

End MoreHandlers.

(** ** Predicates for the handlers above *)

(** [s] consists of decimal digits. *)
Fixpoint all_digit (s : string) : bool :=
  match s with
  | EmptyString => true
  | String c s' => is_digit c && all_digit s'
  end.

(** [s] consists of decimal digits and slashes. *)
Fixpoint digits_and_slashes (s : string) : bool :=
  match s with
  | EmptyString => true
  | String c s' => (is_digit c || Ascii.eqb c "/") && digits_and_slashes s'
  end.

(** What one user action does to the state. *)
Inductive Action :=
| ASearch (input : string)
| ASearchTab
| AStoreTab
| ASortClick (k : SortKey)
| AFileChange (i : FileInputId) (selected : option File)
| ADelete (net : Network) (confirmed : bool) (docId : string)
| AUpdate (net : Network) (form : EditForm)
| AOpenEdit (docId : string)
| ASave (env : SaveEnv) (form : SaveForm).

(** The state after the action; [None] when the save handler leaves
    the typed model (see [handleSaveDocument]). *)
Definition step `{JsHost} (a : Action) (st : AppState) : option AppState :=
  match a with
  | ASearch input => Some (searchSubmit input st)
  | ASearchTab => Some (searchTabClick st)
  | AStoreTab => Some (storeTabClick st)
  | ASortClick k => Some (sortHeaderClick k st)
  | AFileChange i selected => Some (handleFileChange i selected st)
  | ADelete net confirmed docId => Some (handleDeleteDocument net confirmed docId st)
  | AUpdate net form => Some (fst (handleUpdateDocument net form st))
  | AOpenEdit docId => Some (snd (showEditModal docId st))
  | ASave env form => fst <$> handleSaveDocument env form st
  end.

Fixpoint run `{JsHost} (actions : list Action) (st : AppState) : option AppState :=
  match actions with
  | [] => Some st
  | a :: actions' => st' ← step a st; run actions' st'
  end.

(** While the search tab shows, the rows of the table are documents of
    the collection, and so are the documents a click on a header would
    sort. *)
Definition rows_current (st : AppState) : Prop :=
  searchViewShown st = true ->
  (forall d, d ∈ displayed st -> d ∈ documents st)
  /\ (table_shown st -> forall d, d ∈ lastRenderedDocs st -> d ∈ documents st).

(** The save of [form] is accepted by the remote store, with [doc] the
    document it builds: the form is valid, the keywords and the file
    are read, and the remote create succeeds. *)
Definition save_commits `{JsHost} (env : SaveEnv) (form : SaveForm) (st : AppState)
    (doc : Document) : Prop :=
  validateSaveForm form = []
  /\ exists tgs file v,
       read_keywords env = Tagged tgs
       /\ encode_attachment (attachmentInput st) = Ok file
       /\ doc = newDocument env form tgs file
       /\ snd (execute (store env) "create" (PDocument doc)) = Ok v.


Definition edit_form_invalid (form : EditForm) : Prop :=
  trim (edit_docNumber form) = ""
  \/ dateRegex_test (trim (edit_docDate form)) = false
  \/ trim (edit_source form) = ""
  \/ trim (edit_subject form) = "".

(** The cache holds the collection, unless the storage refuses the
    collection as it is now. *)
Definition cache_follows `{JsHost} (st : AppState) : Prop :=
  setItem_throws (documents st) = None -> localStorage st = documents st.

(** The rows are documents of the collection, unless the storage
    refuses the collection as it is now. *)
Definition rows_follow `{JsHost} (st : AppState) : Prop :=
  setItem_throws (documents st) = None -> rows_current st.

(** [st'] has the sort state and the rendering of [st]. *)
Definition same_rendering (st st' : AppState) : Prop :=
  currentSort st' = currentSort st
  /\ lastRenderedDocs st' = lastRenderedDocs st
  /\ lastRenderedTitle st' = lastRenderedTitle st
  /\ searchViewShown st' = searchViewShown st
  /\ searchInput st' = searchInput st
  /\ resultsView st' = resultsView st.

(** [s] has no line break, so that a single-line input keeps it as it
    is; [s] has no carriage return, so that a textarea gives it back
    as it is. *)
Definition no_line_break (s : string) : Prop := strip_newlines s = s.

Definition no_carriage_return (s : string) : Prop := normalize_newlines s = s.

(** [st'] differs from [st] in toasts, inline messages, hints, file
    inputs and the log of remote exchanges only. *)
Definition same_view (st st' : AppState) : Prop :=
  documents st' = documents st
  /\ localStorage st' = localStorage st
  /\ cacheWrites st' = cacheWrites st
  /\ currentSort st' = currentSort st
  /\ lastRenderedDocs st' = lastRenderedDocs st
  /\ lastRenderedTitle st' = lastRenderedTitle st
  /\ searchViewShown st' = searchViewShown st
  /\ searchInput st' = searchInput st
  /\ resultsView st' = resultsView st.


(** The time [docDate] sorts by, [NaN] counting as 0. *)
Definition docTime `{JsHost} (d : Document) : Z :=
  default 0 (beDateToTimestamp (docDate d)).

(** [s] writes an existing date whose Gregorian year is not one of
    0 to 99. *)
Definition plain_date (s : string) : Prop :=
  exists g, gregorian_of s = Some g /\ ~ (0 <= g.1.1 <= 99).

(** No row is out of calendar order with a row below it: for [desc]
    no row is earlier than a row below it, for [asc] none is later. *)
Definition calendar_ordered (dir : Direction) (rows : list Document) : Prop :=
  StronglySorted
    (fun a b =>
       forall ga gb,
         gregorian_of (docDate a) = Some ga -> gregorian_of (docDate b) = Some gb ->
         match dir with
         | desc => ~ calendar_lt ga gb
         | asc => ~ calendar_lt gb ga
         end)
    rows.

(** The file is larger than 50 MB or not of an allowed type. *)
Definition refused (file : File) : Prop :=
  maxSize < file_size file \/ file_type file ∉ allowedTypes.

(** * Properties *)

(** ** Remote store client *)

Section RemoteFacts.
Context `{JsHost}.






Lemma retryable_dec o : {retryable o} + {exists v, attempt o = Ok v}
                        + {exists e, attempt o = Throw e /\ isFetchError e = false}.
Proof.
  unfold retryable. destruct (attempt o) as [v|e]; [left; right; eauto|].
  destruct (isFetchError e) eqn:Hf; [left; left; eauto | right; eauto].
Qed.

(** One unfolding of [syncWithGoogleSheet]. *)
Lemma sync_retry net action payload retries delay :
  retryable (net 0%nat) ->
  syncWithGoogleSheet net action payload (S retries) delay =
    (EvFetch action payload :: EvWait delay
       :: fst (syncWithGoogleSheet (fun k => net (S k)) action payload retries (delay * 2)),
     snd (syncWithGoogleSheet (fun k => net (S k)) action payload retries (delay * 2))).
Proof.
  intros (e & He & Hf). simpl. rewrite He, Hf.
  destruct (syncWithGoogleSheet _ _ _ _ _). reflexivity.
Qed.

Lemma sync_final net action payload retries delay :
  ~ retryable (net 0%nat) ->
  syncWithGoogleSheet net action payload retries delay =
    ([EvFetch action payload], attempt (net 0%nat)).
Proof.
  intros Hn. unfold retryable in Hn.
  destruct retries; simpl; destruct (attempt (net 0%nat)) as [v|e]; try done;
    destruct (isFetchError e) eqn:Hf; try done; exfalso; eauto.
Qed.

Lemma sync_exhausted_0 net action payload delay :
  retryable (net 0%nat) ->
  syncWithGoogleSheet net action payload 0 delay =
    ([EvFetch action payload], Throw (JsError ErrorK MSG_FETCH_FAILED)).
Proof. intros (e & He & Hf). simpl. by rewrite He, Hf. Qed.

Lemma retryable_cases o : retryable o \/ ~ retryable o.
Proof.
  destruct (retryable_dec o) as [[?|[v Hv]]|(e & He & Hf)]; [by left|right..];
    intros (e' & He' & Hf'); congruence.
Qed.

Lemma sync_fetches net action payload retries delay :
  (1 <= fetches (fst (syncWithGoogleSheet net action payload retries delay)) <= S retries)%nat.
Proof.
  revert net delay. induction retries as [|n IH]; intros net delay.
  - destruct (retryable_cases (net 0%nat)) as [Hr|Hr].
    + rewrite sync_exhausted_0 by done. simpl. lia.
    + rewrite sync_final by done. simpl. lia.
  - destruct (retryable_cases (net 0%nat)) as [Hr|Hr].
    + rewrite sync_retry by done. cbn.
      specialize (IH (fun k => net (S k)) (delay * 2)). lia.
    + rewrite sync_final by done. simpl. lia.
Qed.

Lemma sync_waits net action payload retries delay :
  let tr := fst (syncWithGoogleSheet net action payload retries delay) in
  waits tr = backoff delay (fetches tr - 1).
Proof.
  revert net delay. induction retries as [|n IH]; intros net delay.
  - destruct (retryable_cases (net 0%nat)) as [Hr|Hr].
    + rewrite sync_exhausted_0 by done. reflexivity.
    + rewrite sync_final by done. reflexivity.
  - destruct (retryable_cases (net 0%nat)) as [Hr|Hr].
    + rewrite sync_retry by done. cbn.
      specialize (IH (fun k => net (S k)) (delay * 2)).
      pose proof (sync_fetches (fun k => net (S k)) action payload n (delay * 2)) as Hb.
      cbn in IH.
      destruct (fetches _) as [|m] eqn:Hm; [lia|].
      rewrite IH. simpl. rewrite Nat.sub_0_r. reflexivity.
    + rewrite sync_final by done. reflexivity.
Qed.






End RemoteFacts.



(** A refusal of the server never surfaces with the server's text: the
    [throw] of line 34 is inside the [try] whose [catch] replaces every
    error by the message for an unreadable response. *)
Lemma refusal_message_replaced `{JsHost} (body message : string) :
  refusal body message ->
  parse_response body = Throw (JsError ErrorK MSG_INVALID_RESPONSE).
Proof.
  intros (o & Hp & Hs & He). unfold parse_response. rewrite Hp. simpl.
  rewrite Hs. reflexivity.
Qed.

(** C3, at the response [{"success":false,"error":"Sheet not found"}]:
    [execute] fails with the message for an unreadable response, not
    with the message the server supplied. *)
Theorem refusal_message_lost :
  @refusal example_host BODY_REFUSED "Sheet not found"
  /\ @execute example_host (always (respond BODY_REFUSED)) "delete" (PId "doc_1")
     = ([EvFetch "delete" (PId "doc_1")], Throw (JsError ErrorK MSG_INVALID_RESPONSE))
  /\ MSG_INVALID_RESPONSE <> "Sheet not found".
Proof.
  split; [|split; [reflexivity|discriminate]].
  eexists. split; [reflexivity|]. split; reflexivity.
Qed.

(** ** Document repository *)

Section RepositoryFacts.
Context `{JsHost}.

Lemma view_change_refl st : view_change st st.
Proof. by repeat split. Qed.

Lemma view_change_trans st1 st2 st3 :
  view_change st1 st2 -> view_change st2 st3 -> view_change st1 st3.
Proof. unfold view_change. intuition congruence. Qed.

Lemma renderResultsTable_view docs title st :
  view_change st (renderResultsTable docs title st).
Proof. unfold renderResultsTable. destruct docs; by repeat split. Qed.

Lemma renderRecentDocuments_view st : view_change st (renderRecentDocuments st).
Proof.
  unfold renderRecentDocuments. destruct (documents st) eqn:Hd; [by repeat split|].
  eapply view_change_trans; [|apply renderResultsTable_view]. by repeat split.
Qed.

Lemma handleSearch_view st : view_change st (handleSearch st).
Proof.
  unfold handleSearch. destruct (String.eqb _ _);
    [apply renderRecentDocuments_view | apply renderResultsTable_view].
Qed.

Lemma sortHeaderClick_view k st : view_change st (sortHeaderClick k st).
Proof.
  unfold sortHeaderClick. destruct (resultsView st); try apply view_change_refl.
  destruct (List.find _ _) as [[? ?]|]; [|apply view_change_refl].
  eapply view_change_trans; [|apply renderResultsTable_view]. by repeat split.
Qed.

Lemma rerender_view st : view_change st (rerender st).
Proof.
  unfold rerender. destruct (searchViewShown st); [|apply view_change_refl].
  destruct (negb _); [apply handleSearch_view | apply renderRecentDocuments_view].
Qed.

(** [saveDocuments] throws exactly when the write to the cache does. *)
Lemma saveDocuments_Throw st e :
  saveDocuments st = Throw e <-> setItem_throws (documents st) = Some e.
Proof.
  unfold saveDocuments, localStorage_setItem.
  destruct (setItem_throws (documents st)) as [e'|]; simpl; split; congruence.
Qed.

(** Otherwise it writes the collection to the cache, once. *)
Lemma saveDocuments_Ok st st' :
  saveDocuments st = Ok st' ->
  setItem_throws (documents st) = None
  /\ documents st' = documents st
  /\ localStorage st' = documents st
  /\ cacheWrites st' = S (cacheWrites st)
  /\ toasts st' = toasts st
  /\ remoteLog st' = remoteLog st.
Proof.
  unfold saveDocuments, localStorage_setItem.
  destruct (setItem_throws (documents st)) as [e'|]; simpl; [done|]. intros [= <-].
  match goal with |- context [rerender ?s] =>
    destruct (rerender_view s) as (-> & -> & -> & -> & -> & _) end.
  by repeat split.
Qed.

Lemma saveDocuments_accepted st :
  setItem_throws (documents st) = None -> exists st', saveDocuments st = Ok st'.
Proof.
  intros Hn. unfold saveDocuments, localStorage_setItem. rewrite Hn. simpl. eauto.
Qed.

Lemma find_id_Some docId docs d :
  find_id docId docs = Some d <->
  exists i, list_find (fun d => id d = docId) docs = Some (i, d).
Proof.
  unfold find_id. split.
  - intros ([i d'] & Hf & ->)%fmap_Some. eauto.
  - intros [i ->]. reflexivity.
Qed.

Lemma find_id_None docId docs :
  find_id docId docs = None <-> Forall (fun d => id d <> docId) docs.
Proof. unfold find_id. rewrite fmap_None. apply list_find_None. Qed.

Lemma findIndex_id_None docId docs :
  findIndex_id docId docs = None <-> find_id docId docs = None.
Proof. unfold findIndex_id, find_id. by rewrite !fmap_None. Qed.

Lemma find_id_filter_out docId docs :
  find_id docId (List.filter (fun d => negb (String.eqb (id d) docId)) docs) = None.
Proof.
  apply find_id_None, Forall_forall. intros d [_ Hd]%list_elem_of_In%filter_In.
  apply negb_true_iff, String.eqb_neq in Hd. done.
Qed.

End RepositoryFacts.

(** C1.  When the remote call of a delete fails, the collection (hence
    its length) is what it was and the cache is not written; the
    collection or the cache changes only if the remote call succeeded;
    and when it succeeds for a document that is present and whose
    removal the user confirmed, the entry is removed, and the
    collection is written to the cache unless the storage refuses the
    write: then the cache stays as it was and the error is shown. *)
Theorem delete_is_remote_first `{JsHost} (net : Network) (confirmed : bool)
    (docId : string) (st : AppState) :
  let st' := handleDeleteDocument net confirmed docId st in
  let res := snd (execute net "delete" (PId docId)) in
  (forall e, res = Throw e ->
     documents st' = documents st
     /\ length (documents st') = length (documents st)
     /\ localStorage st' = localStorage st
     /\ cacheWrites st' = cacheWrites st)
  /\ (documents st' <> documents st \/ localStorage st' <> localStorage st
      \/ cacheWrites st' <> cacheWrites st ->
      exists v, res = Ok v)
  /\ (forall v doc, res = Ok v -> find_id docId (documents st) = Some doc -> confirmed = true ->
      documents st' = List.filter (fun d => negb (String.eqb (id d) docId)) (documents st)
      /\ find_id docId (documents st') = None
      /\ match setItem_throws (documents st') with
         | None =>
             localStorage st' = documents st'
             /\ cacheWrites st' = S (cacheWrites st)
             /\ toasts st' = toasts st ++ [(MSG_DELETED, success)]
         | Some e =>
             localStorage st' = localStorage st
             /\ cacheWrites st' = cacheWrites st
             /\ toasts st' = toasts st ++ [(errorMessage e MSG_DELETE_FAILED, error)]
         end).
Proof.
  intros st' res. subst st' res. unfold handleDeleteDocument.
  destruct (find_id docId (documents st)) as [doc|] eqn:Hfind.
  2: { split; [done|]. split; [intros [?|[?|?]]; done|]. done. }
  destruct confirmed.
  2: { split; [done|]. split; [intros [?|[?|?]]; done|]. done. }
  destruct (execute net "delete" (PId docId)) as [tr [v|e]]; simpl.
  - split; [done|]. split; [eauto|]. intros v' doc' _ _ _.
    match goal with |- context [saveDocuments ?s] =>
      destruct (saveDocuments s) as [s'|e] eqn:Hsave end.
    + apply saveDocuments_Ok in Hsave as (Hn & Hd & Hl & Hc & Ht & _).
      cbn [documents localStorage cacheWrites toasts showToast].
      rewrite Hd, Hl, Hc, Ht. cbn [documents set_documents log_remote] in *.
      rewrite Hn. split; [done|]. split; [apply find_id_filter_out|done].
    + apply saveDocuments_Throw in Hsave.
      cbn [documents localStorage cacheWrites toasts showToast set_documents log_remote] in *.
      rewrite Hsave. split; [done|]. split; [apply find_id_filter_out|done].
  - split; [done|]. split; [intros [?|[?|?]]; done|]. done.
Qed.

Lemma delete_is_remote_first_witness :
  let st := initial_state [mkDoc "doc_1" "1/2566" "กองคลัง" "งบประมาณ" "01/01/2566" "" [] ""] in
  let st' := @handleDeleteDocument example_host (always (http_status 500)) true "doc_1" st in
  documents st' = documents st
  /\ length (documents st') = length (documents st)
  /\ localStorage st' = localStorage st
  /\ cacheWrites st' = cacheWrites st.
Proof.
  intros st st'.
  apply (@delete_is_remote_first example_host (always (http_status 500)) true "doc_1" st)
    with (e := JsError ErrorK "HTTP error! status: 500").
  reflexivity.
Defined.

(** C8, as amended.  For an id absent from the collection, delete
    leaves the whole state as it is, and update changes neither
    collection nor cache; neither makes a remote call, and neither
    notifies the user. *)
Theorem absent_id_is_silent_noop `{JsHost} (net : Network) (form : EditForm)
    (confirmed : bool) (docId : string) (st : AppState) :
  find_id docId (documents st) = None ->
  handleDeleteDocument net confirmed docId st = st
  /\ (edit_docId form = docId ->
      let st' := fst (handleUpdateDocument net form st) in
      snd (handleUpdateDocument net form st) = None
      /\ documents st' = documents st
      /\ localStorage st' = localStorage st
      /\ cacheWrites st' = cacheWrites st
      /\ remoteLog st' = remoteLog st
      /\ toasts st' = toasts st
      /\ resultsView st' = resultsView st).
Proof.
  intros Hnone. split.
  - unfold handleDeleteDocument. by rewrite Hnone.
  - intros Hid. unfold handleUpdateDocument. cbn zeta.
    destruct (validateEditForm form); [|by repeat split].
    cbn [documents set_editErrors set_hint set_fileInput].
    rewrite Hid, (proj2 (findIndex_id_None _ _) Hnone). by repeat split.
Qed.

Lemma absent_id_is_silent_noop_witness :
  let st := initial_state [] in
  @handleDeleteDocument example_host (always (respond BODY_OK)) true "doc_9" st = st.
Proof.
  intros st.
  apply (@absent_id_is_silent_noop example_host (always (respond BODY_OK))
           {| edit_docId := "doc_9"; edit_docNumber := ""; edit_docDate := "";
              edit_source := ""; edit_subject := ""; edit_notes := "" |} true "doc_9" st).
  reflexivity.
Defined.

(** C8 as stated fails: deleting an id the collection does not hold
    shows no notification. *)
Lemma not_found_is_not_notified : ~ not_found_claim_as_stated.
Proof.
  intros Hclaim.
  destruct (Hclaim example_host (always (respond BODY_OK))
              {| edit_docId := "doc_9"; edit_docNumber := ""; edit_docDate := "";
                 edit_source := ""; edit_subject := ""; edit_notes := "" |}
              true "doc_9" (initial_state []) eq_refl) as [(_ & _ & _ & _ & Hn) _].
  by apply Hn.
Qed.

(** Reading back by id after the entry at the first index holding
    that id is replaced by a document with the same id. *)
Lemma find_id_insert docId docs i old new :
  list_find (fun d => id d = docId) docs = Some (i, old) ->
  id new = docId ->
  find_id docId (<[i := new]> docs) = Some new.
Proof.
  intros (Hi & Hold & Hleast)%list_find_Some Hnew.
  apply find_id_Some. exists i. apply list_find_insert_Some. right; left.
  split_and!; [done|done|by eapply lookup_lt_Some|done|done].
Qed.




(** ** Strings *)










Lemma toLowerCase_idemp s : toLowerCase (toLowerCase s) = toLowerCase s.
Proof.
  induction s as [|c s IH]; simpl; [done|]. rewrite IH. f_equal.
  destruct c as [[] [] [] [] [] [] [] []]; reflexivity.
Qed.






(** ** Search and sort engine *)

Section SortFacts.
Context {A : Type} (cmp : A -> A -> option Z).

Lemma insert_sorted_perm x l : insert_sorted cmp x l ≡ₚ x :: l.
Proof.
  induction l as [|y l IH]; simpl; [done|].
  destruct (default 0 (cmp x y) <=? 0); [done|].
  rewrite IH. apply Permutation_swap.
Qed.

Lemma Array_sort_perm l : Array_sort cmp l ≡ₚ l.
Proof.
  induction l as [|x l IH]; simpl; [done|].
  rewrite insert_sorted_perm. by rewrite IH.
Qed.


Context (k : A -> Z).

Lemma orders_desc_weaken l l' :
  (forall x, x ∈ l' -> x ∈ l) -> orders_desc cmp k l -> orders_desc cmp k l'.
Proof. intros Hsub Hord x y Hx Hy. apply Hord; auto. Qed.

Lemma insert_sorted_desc x l :
  orders_desc cmp k (x :: l) ->
  StronglySorted (fun a b => k b <= k a) l ->
  StronglySorted (fun a b => k b <= k a) (insert_sorted cmp x l).
Proof.
  intros Hord. induction l as [|y l IH]; intros Hs; simpl.
  - repeat constructor.
  - apply StronglySorted_inv in Hs as [Hs Hy].
    destruct (Z.leb_spec (default 0 (cmp x y)) 0) as [Hle|Hgt].
    + apply Hord in Hle; [|repeat constructor..].
      constructor; [by constructor|]. constructor; [done|].
      eapply Forall_impl; [exact Hy|]. simpl. lia.
    + assert (Hxy : k x <= k y).
      { destruct (Z.le_gt_cases (k y) (k x)) as [Hc|Hc]; [|lia].
        apply Hord in Hc; [lia|repeat constructor..]. }
      constructor.
      * apply IH; [|done]. apply (orders_desc_weaken (x :: y :: l)); [|done].
        intros z [->|Hz]%elem_of_cons; [left|right; by right].
      * rewrite insert_sorted_perm. by constructor.
Qed.

Lemma Array_sort_desc l :
  orders_desc cmp k l -> StronglySorted (fun a b => k b <= k a) (Array_sort cmp l).
Proof.
  induction l as [|x l IH]; intros Hord; simpl; [constructor|].
  apply insert_sorted_desc.
  - intros a b Ha Hb. apply Hord; rewrite <- (Array_sort_perm l); done.
  - apply IH. apply (orders_desc_weaken (x :: l)); [|done]. by right.
Qed.

(** Sorting a list that is in order leaves it as it is. *)
Lemma Array_sort_sorted l :
  orders_desc cmp k l ->
  StronglySorted (fun a b => k b <= k a) l -> Array_sort cmp l = l.
Proof.
  induction l as [|x l IH]; intros Hord Hs; simpl; [done|].
  apply StronglySorted_inv in Hs as [Hs Hx].
  rewrite IH; [|apply (orders_desc_weaken (x :: l)); [by right|done]|done].
  destruct l as [|y l]; simpl; [done|].
  apply Forall_inv in Hx.
  apply Hord in Hx; [|repeat constructor..].
  by apply Z.leb_le in Hx as ->.
Qed.

End SortFacts.


Section SearchFacts.
Context `{JsHost}.

Lemma renderResultsTable_spec docs title st :
  lastRenderedDocs (renderResultsTable docs title st) = docs
  /\ lastRenderedTitle (renderResultsTable docs title st) = title
  /\ currentSort (renderResultsTable docs title st) = currentSort st
  /\ displayed (renderResultsTable docs title st)
     = Array_sort (compareDocs (currentSort st)) docs.
Proof. unfold renderResultsTable. destruct docs; by repeat split. Qed.





End SearchFacts.




(** ** Sort state and file inputs *)

Section ViewFacts.
Context `{JsHost}.

Lemma view_in_sync_ext st st' :
  resultsView st' = resultsView st ->
  currentSort st' = currentSort st ->
  lastRenderedDocs st' = lastRenderedDocs st ->
  lastRenderedTitle st' = lastRenderedTitle st ->
  view_in_sync st -> view_in_sync st'.
Proof. unfold view_in_sync. by intros -> -> -> ->. Qed.

Lemma renderResultsTable_sync docs title st :
  view_in_sync (renderResultsTable docs title st).
Proof. unfold renderResultsTable, view_in_sync. destruct docs; simpl; [done|]. by repeat split. Qed.

Lemma renderRecentDocuments_sync st : view_in_sync (renderRecentDocuments st).
Proof.
  unfold renderRecentDocuments. destruct (documents st); [done|].
  apply renderResultsTable_sync.
Qed.

Lemma handleSearch_sync st : view_in_sync (handleSearch st).
Proof.
  unfold handleSearch. destruct (String.eqb _ _);
    [apply renderRecentDocuments_sync | apply renderResultsTable_sync].
Qed.

Lemma rerender_sync st : view_in_sync st -> view_in_sync (rerender st).
Proof.
  intros Hs. unfold rerender. destruct (searchViewShown st); [|done].
  destruct (negb _); [apply handleSearch_sync | apply renderRecentDocuments_sync].
Qed.

Lemma saveDocuments_sync st st' :
  saveDocuments st = Ok st' -> view_in_sync st -> view_in_sync st'.
Proof.
  unfold saveDocuments, localStorage_setItem.
  destruct (setItem_throws (documents st)); simpl; [done|]. intros [= <-] Hs.
  apply rerender_sync. by eapply view_in_sync_ext; [..|exact Hs].
Qed.

Lemma sortHeaderClick_sync k st : view_in_sync st -> view_in_sync (sortHeaderClick k st).
Proof.
  intros Hs. unfold sortHeaderClick. destruct (resultsView st); try done.
  destruct (List.find _ _) as [[? ?]|]; [|done]. apply renderResultsTable_sync.
Qed.

(** Every handler keeps the table in step with the sort state. *)
Lemma handlers_keep_sync net form confirmed docId i selected st :
  view_in_sync st ->
  view_in_sync (handleDeleteDocument net confirmed docId st)
  /\ view_in_sync (fst (handleUpdateDocument net form st))
  /\ view_in_sync (handleFileChange i selected st).
Proof.
  intros Hs. split; [|split].
  - unfold handleDeleteDocument. destruct (find_id _ _); [|done].
    destruct confirmed; [|done]. destruct (execute _ _ _) as [tr [v|e]].
    + destruct (saveDocuments _) as [s'|e] eqn:Hsave.
      * eapply (view_in_sync_ext s'); [reflexivity..|].
        eapply saveDocuments_sync; [exact Hsave|].
        by eapply view_in_sync_ext; [..|exact Hs].
      * by eapply view_in_sync_ext; [..|exact Hs].
    + by eapply view_in_sync_ext; [..|exact Hs].
  - unfold handleUpdateDocument. cbn zeta.
    destruct (validateEditForm form); [|by eapply view_in_sync_ext; [..|exact Hs]].
    destruct (findIndex_id _ _); [|by eapply view_in_sync_ext; [..|exact Hs]].
    destruct (_ !! _); [|by eapply view_in_sync_ext; [..|exact Hs]].
    destruct (encode_attachment _); [|by eapply view_in_sync_ext; [..|exact Hs]].
    destruct (execute _ _ _) as [tr [v|e]]; simpl.
    + destruct (saveDocuments _) as [s'|e] eqn:Hsave; simpl.
      * eapply (view_in_sync_ext s'); [reflexivity..|].
        eapply saveDocuments_sync; [exact Hsave|].
        by eapply view_in_sync_ext; [..|exact Hs].
      * by eapply view_in_sync_ext; [..|exact Hs].
    + by eapply view_in_sync_ext; [..|exact Hs].
  - by eapply view_in_sync_ext; [..|exact Hs].
Qed.

End ViewFacts.

(** C7.  While the table is displayed, a click on the header of the
    active sort key flips the direction, and a second click on it
    brings back the sort state and the rows as they were; a click on
    the header of another key makes that key active, descending. *)
Theorem sort_toggle `{JsHost} (st : AppState) (k : SortKey) :
  view_in_sync st -> table_shown st -> k ∈ sortable_keys ->
  let st1 := sortHeaderClick k st in
  (key (currentSort st) = k ->
   key (currentSort st1) = k
   /\ direction (currentSort st1) = flip_direction (direction (currentSort st))
   /\ currentSort (sortHeaderClick k st1) = currentSort st
   /\ displayed (sortHeaderClick k st1) = displayed st
   /\ sortHeaderClick k st1 = st)
  /\ (key (currentSort st) <> k ->
      currentSort st1 = {| key := k; direction := desc |})
  /\ displayed st1 = Array_sort (compareDocs (currentSort st1)) (lastRenderedDocs st)
  /\ table_shown st1.
Proof.
  intros Hsync (title & headers & rows & Hview) Hk st1. subst st1.
  unfold view_in_sync in Hsync. rewrite Hview in Hsync.
  destruct Hsync as (-> & -> & -> & Hne).
  destruct st as [docs cache writes [k0 d0] last ttl shown input view ts errs a1 a2 log h1 h2].
  simpl in *. subst view.
  destruct last as [|doc last]; [done|].
  assert (Hcases : k = K_docNumber \/ k = K_docDate \/ k = K_source \/ k = K_subject).
  { unfold sortable_keys in Hk. rewrite !elem_of_cons in Hk.
    destruct Hk as [?|[?|[?|[?|Hnil]]]]; auto. by apply elem_of_nil in Hnil. }
  unfold sortHeaderClick, table_shown. simpl.
  destruct Hcases as [-> | [-> | [-> | ->]]]; destruct k0, d0; simpl;
    (split; [intros Hkey; try discriminate; by repeat split|]);
    (split; [intros Hkey; try done|]);
    (split; [done|eauto]).
Qed.

Lemma sort_toggle_witness :
  let d1 := mkDoc "doc_1" "1/2566" "กองคลัง" "งบประมาณ" "01/01/2566" "" []
              "2024-05-01T03:00:00.000Z" in
  let d2 := mkDoc "doc_2" "2/2565" "กองแผน" "แผนงาน" "01/01/2565" "" []
              "2024-05-02T03:00:00.000Z" in
  let st := @sortHeaderClick example_host K_docDate
              (@handleSearch example_host (with_search "" (initial_state [d1; d2]))) in
  @sortHeaderClick example_host K_docDate (@sortHeaderClick example_host K_docDate st) = st.
Proof.
  intros d1 d2 st.
  apply (@sort_toggle example_host st K_docDate).
  - apply sortHeaderClick_sync, handleSearch_sync.
  - by eexists _, _, _.
  - unfold sortable_keys. rewrite !elem_of_cons. auto.
  - reflexivity.
Defined.

(** C9.  A chosen file stays in the input exactly when its type is one
    of the four allowed and its size is at most 50 MB; a file of
    exactly 50 MB of an allowed type is accepted, a file of 51 MB is
    refused with the input cleared; and the change of a file input
    touches nothing but that input: no remote call, no write to the
    collection or the cache. *)
Theorem attachment_acceptance (i : FileInputId) (file : File) (st : AppState) :
  let st' := handleFileChange i (Some file) st in
  (accepted i file st' <->
   file_type file ∈ ["image/jpeg"; "image/png"; "image/gif"; "application/pdf"]
   /\ file_size file <= 50 * 1024 * 1024)
  /\ (~ accepted i file st' ->
      files (fileInput i st') = None /\ invalid (fileInput i st') = true)
  /\ (file_size file = 50 * 1024 * 1024 -> file_type file ∈ allowedTypes -> accepted i file st')
  /\ (file_size file = 51 * 1024 * 1024 ->
      files (fileInput i st') = None /\ errorElement (fileInput i st') = MSG_FILE_TOO_LARGE)
  /\ st' = set_fileInput i (fileInput i st') st
  /\ remoteLog st' = remoteLog st
  /\ documents st' = documents st
  /\ localStorage st' = localStorage st
  /\ cacheWrites st' = cacheWrites st
  /\ fileInput (other_input i) st' = fileInput (other_input i) st.
Proof.
  intros st'. subst st'. unfold handleFileChange, accepted, maxSize.
  change (50 * 1024 * 1024) with 52428800. change (51 * 1024 * 1024) with 53477376.
  destruct (Z.ltb_spec 52428800 (file_size file)) as [Hbig|Hsmall].
  - destruct i; simpl; split_and!; try done; try lia;
      (split; [done | intros [_ Hle]; lia]).
  - destruct (decide (file_type file ∈ allowedTypes)) as [Hty|Hty].
    + rewrite (bool_decide_eq_true_2 _ Hty).
      destruct i; simpl; split_and!; try done; try lia.
    + rewrite (bool_decide_eq_false_2 _ Hty).
      destruct i; simpl; split_and!; try done; try lia;
        (split; [done | intros [Hin _]; done]).
Qed.

Lemma attachment_acceptance_witness :
  let pdf := {| file_name := "scan.pdf"; file_type := "application/pdf";
                file_size := 50 * 1024 * 1024; file_base64 := Ok "JVBERi0=" |} in
  accepted attachment pdf (handleFileChange attachment (Some pdf) (initial_state [])).
Proof.
  intros pdf.
  apply (attachment_acceptance attachment pdf (initial_state [])).
  - reflexivity.
  - unfold allowedTypes. rewrite !elem_of_cons. auto.
Defined.

(** ** Search on the collection as the remote read leaves it *)

Section RawFacts.
Context `{JsHost}.
















End RawFacts.

Section RawSearch.
Context `{JsHost}.

Lemma raw_handleSearch_query docs input :
  trim (toLowerCase input) <> "" ->
  raw_handleSearch (Some (JArr docs)) input =
    do results <- filter_raw (raw_matches (trim (toLowerCase input))) docs; Ok (Some results).
Proof.
  intros Hq. unfold raw_handleSearch.
  by destruct (String.eqb_spec (trim (toLowerCase input)) "").
Qed.


(** The initial read stores the [data] of the response as it is. *)
Lemma initialSync_stores_data net current response body o :
  net 0%nat = Resolved response -> ok response = true -> text response = Ok body ->
  JSON_parse body = Some (JObj o) ->
  o !! "success" <> Some (JBool false) ->
  initialSync_documents net current = o !! "data".
Proof.
  intros Hnet Hok Htext Hparse Hs. unfold initialSync_documents, execute. simpl.
  rewrite Hnet. simpl. rewrite Hok, Htext. simpl. unfold parse_response. rewrite Hparse. simpl.
  destruct (o !! "success") as [[|[]| | | |]|]; try done.
Qed.

(** The properties of the JSON value of a document. *)
Lemma toJs_props d :
  exists o, toJs d = JObj o
            /\ o !! "subject" = Some (JStr (subject d))
            /\ o !! "docNumber" = Some (JStr (docNumber d))
            /\ o !! "source" = Some (JStr (source d))
            /\ o !! "notes" = Some (JStr (notes d))
            /\ o !! "fileName" = JStr <$> fileName d
            /\ o !! "tags" = Some (JArr (JStr <$> tags d)).
Proof.
  eexists. split; [reflexivity|].
  destruct d as [i n s sj dt nt tg cr [f1|] [f2|] [f3|] [g1|] [g2|] [g3|]];
    repeat split; vm_compute; reflexivity.
Qed.

Lemma some_raw_strings query (l : list string) :
  some_raw (fun tag => do s <- call_toLowerCase (Some tag); Ok (includes s query))
    (JStr <$> l)
  = Ok (existsb (fun tag => includes (toLowerCase tag) query) l).
Proof.
  induction l as [|t l IH]; simpl in *; [done|].
  destruct (includes (toLowerCase t) query); [done|]. exact IH.
Qed.

(** On a document of the declared type the predicate never throws. *)
Lemma raw_matches_typed query d : raw_matches query (toJs d) = Ok (matches query d).
Proof.
  destruct (toJs_props d) as (o & -> & Hsubject & HdocNumber & Hsource & Hnotes & Hfile & Htags).
  unfold raw_matches, matches, prop_includes, get_prop.
  rewrite Hsubject, HdocNumber, Hsource, Hnotes, Hfile, Htags. simpl.
  destruct (includes (toLowerCase (subject d)) query); simpl; [done|].
  destruct (includes (toLowerCase (docNumber d)) query); simpl; [done|].
  destruct (includes (toLowerCase (source d)) query); simpl; [done|].
  destruct (includes (toLowerCase (notes d)) query); simpl; [done|].
  pose proof (some_raw_strings query (tags d)) as Htg. simpl in Htg.
  destruct (fileName d) as [fn|]; simpl; [|exact Htg].
  destruct (String.eqb fn ""); simpl; [exact Htg|].
  destruct (includes (toLowerCase fn) query); [done|exact Htg].
Qed.

Lemma filter_raw_typed query docs :
  filter_raw (raw_matches query) (toJs <$> docs)
  = Ok (toJs <$> List.filter (matches query) docs).
Proof.
  induction docs as [|d docs IH]; [done|].
  cbn [fmap list_fmap filter_raw List.filter].
  change (list_fmap _ _ toJs docs) with (toJs <$> docs).
  rewrite raw_matches_typed, IH. simpl. by destruct (matches query d).
Qed.

(** On a collection of documents of the declared type, the search of
    the run-time collection is the search of the typed one. *)
Lemma raw_search_typed docs input :
  trim (toLowerCase input) <> "" ->
  raw_handleSearch (Some (JArr (toJs <$> docs))) input
  = Ok (Some (toJs <$> List.filter (matches (trim (toLowerCase input))) docs)).
Proof. intros Hq. by rewrite raw_handleSearch_query, filter_raw_typed. Qed.

End RawSearch.




(** ** Dates *)

Lemma DayFromYear_succ y : DayFromYear (y + 1) = DayFromYear y + DaysInYear y.
Proof.
  unfold DayFromYear, DaysInYear.
  destruct (Z.eqb_spec (y mod 4) 0), (Z.eqb_spec (y mod 100) 0), (Z.eqb_spec (y mod 400) 0);
    simpl; Z.div_mod_to_equations; lia.
Qed.

Lemma DaysInYear_bounds y : 365 <= DaysInYear y <= 366.
Proof.
  unfold DaysInYear.
  destruct (negb _); [lia|]. destruct (negb _); [lia|]. destruct (negb _); lia.
Qed.

(** The first day of a later year is a later day. *)
Lemma DayFromYear_mono y1 y2 :
  y1 <= y2 -> DayFromYear y1 <= DayFromYear y2.
Proof.
  intros Hle. replace y2 with (y1 + Z.of_nat (Z.to_nat (y2 - y1))) by lia.
  induction (Z.to_nat (y2 - y1)) as [|n IH]; [by rewrite Z.add_0_r|].
  replace (y1 + Z.of_nat (S n)) with (y1 + Z.of_nat n + 1) by lia.
  rewrite DayFromYear_succ. pose proof (DaysInYear_bounds (y1 + Z.of_nat n)). lia.
Qed.

Lemma DayFromYear_bounds y :
  -1000 <= y <= 10000 -> -1100000 <= DayFromYear y <= 3000000.
Proof. intros Hy. unfold DayFromYear. Z.div_mod_to_equations. lia. Qed.

(** The day number of an existing date lies within its year. *)
Lemma MakeDay_within_year y m d :
  calendar_date y m d ->
  DayFromYear y <= MakeDay y (m - 1) d < DayFromYear y + DaysInYear y.
Proof.
  intros [Hm Hd]. unfold MakeDay.
  replace ((m - 1) / 12) with 0 by (Z.div_mod_to_equations; lia).
  replace ((m - 1) mod 12) with (m - 1) by (Z.div_mod_to_equations; lia).
  rewrite Z.add_0_r. unfold days_in_month in Hd.
  pose proof (DaysInYear_bounds y) as Hy.
  assert (Hcases : m = 1 \/ m = 2 \/ m = 3 \/ m = 4 \/ m = 5 \/ m = 6 \/ m = 7 \/ m = 8
                   \/ m = 9 \/ m = 10 \/ m = 11 \/ m = 12) by lia.
  destruct (Z.eqb_spec (DaysInYear y) 366) as [He|He];
    repeat (destruct Hcases as [-> | Hcases]); try subst m; simpl in *; lia.
Qed.

(** Within a year, day numbers follow month and day. *)
Lemma MakeDay_same_year y m1 d1 m2 d2 :
  calendar_date y m1 d1 -> calendar_date y m2 d2 ->
  m1 < m2 \/ (m1 = m2 /\ d1 < d2) ->
  MakeDay y (m1 - 1) d1 < MakeDay y (m2 - 1) d2.
Proof.
  intros [Hm1 Hd1] [Hm2 Hd2] Hlt. unfold MakeDay.
  replace ((m1 - 1) / 12) with 0 by (Z.div_mod_to_equations; lia).
  replace ((m1 - 1) mod 12) with (m1 - 1) by (Z.div_mod_to_equations; lia).
  replace ((m2 - 1) / 12) with 0 by (Z.div_mod_to_equations; lia).
  replace ((m2 - 1) mod 12) with (m2 - 1) by (Z.div_mod_to_equations; lia).
  unfold days_in_month in *.
  assert (Hc1 : m1 = 1 \/ m1 = 2 \/ m1 = 3 \/ m1 = 4 \/ m1 = 5 \/ m1 = 6 \/ m1 = 7 \/ m1 = 8
                \/ m1 = 9 \/ m1 = 10 \/ m1 = 11 \/ m1 = 12) by lia.
  assert (Hc2 : m2 = 1 \/ m2 = 2 \/ m2 = 3 \/ m2 = 4 \/ m2 = 5 \/ m2 = 6 \/ m2 = 7 \/ m2 = 8
                \/ m2 = 9 \/ m2 = 10 \/ m2 = 11 \/ m2 = 12) by lia.
  destruct (Z.eqb_spec (DaysInYear (y + 0)) 366) as [He|He]; rewrite Z.add_0_r in He;
    destruct (Z.eqb_spec (DaysInYear y) 366); try lia;
    repeat (destruct Hc1 as [-> | Hc1]); try subst m1;
    repeat (destruct Hc2 as [-> | Hc2]); try subst m2; simpl in *; lia.
Qed.

(** Day numbers follow the calendar. *)
Lemma MakeDay_calendar_lt y1 m1 d1 y2 m2 d2 :
  calendar_date y1 m1 d1 -> calendar_date y2 m2 d2 ->
  calendar_lt (y1, m1, d1) (y2, m2, d2) ->
  MakeDay y1 (m1 - 1) d1 < MakeDay y2 (m2 - 1) d2.
Proof.
  intros H1 H2 [Hy|[-> Hmd]]; [|by apply MakeDay_same_year].
  pose proof (MakeDay_within_year _ _ _ H1) as B1.
  pose proof (MakeDay_within_year _ _ _ H2) as B2.
  pose proof (DayFromYear_succ y1) as Hs.
  pose proof (DayFromYear_mono (y1 + 1) y2 ltac:(lia)). lia.
Qed.

Lemma calendar_trichotomy a b : calendar_lt a b \/ a = b \/ calendar_lt b a.
Proof.
  destruct a as [[y1 m1] d1], b as [[y2 m2] d2]. unfold calendar_lt.
  destruct (Z.lt_trichotomy y1 y2) as [?|[->|?]]; [auto| |auto].
  destruct (Z.lt_trichotomy m1 m2) as [?|[->|?]]; [auto| |auto 6].
  destruct (Z.lt_trichotomy d1 d2) as [?|[->|?]]; auto 8.
Qed.

Lemma calendar_lt_asym a b : calendar_lt a b -> calendar_lt b a -> False.
Proof.
  destruct a as [[y1 m1] d1], b as [[y2 m2] d2]. unfold calendar_lt. lia.
Qed.

Lemma MakeDay_calendar y1 m1 d1 y2 m2 d2 :
  calendar_date y1 m1 d1 -> calendar_date y2 m2 d2 ->
  (MakeDay y1 (m1 - 1) d1 < MakeDay y2 (m2 - 1) d2
   <-> calendar_lt (y1, m1, d1) (y2, m2, d2)).
Proof.
  intros H1 H2. split; [|by apply MakeDay_calendar_lt].
  intros Hlt. destruct (calendar_trichotomy (y1, m1, d1) (y2, m2, d2)) as [?|[Heq|Hgt]]; [done|..].
  - injection Heq as -> -> ->. lia.
  - apply MakeDay_calendar_lt in Hgt; [lia|done..].
Qed.

Lemma is_digit_facts c :
  is_digit c = true ->
  Ascii.eqb c "/" = false /\ 0 <= digit_value c <= 9
  /\ forall s, parseInt (String c s) = leading_digits (String c s) None.
Proof.
  destruct c as [[] [] [] [] [] [] [] []]; try discriminate; intros _;
    (split; [reflexivity|split; [vm_compute; split; discriminate|reflexivity]]).
Qed.

Lemma parseInt_two a b :
  is_digit a = true -> is_digit b = true ->
  parseInt (String a (String b EmptyString)) = Some (two_digits a b).
Proof.
  intros Ha Hb. destruct (is_digit_facts a Ha) as (_ & _ & ->).
  simpl. rewrite Ha, Hb. simpl. unfold two_digits. f_equal; lia.
Qed.

Lemma parseInt_four a b c d :
  is_digit a = true -> is_digit b = true -> is_digit c = true -> is_digit d = true ->
  parseInt (String a (String b (String c (String d EmptyString)))) = Some (four_digits a b c d).
Proof.
  intros Ha Hb Hc Hd. destruct (is_digit_facts a Ha) as (_ & _ & ->).
  simpl. rewrite Ha, Hb, Hc, Hd. simpl. unfold four_digits. f_equal; lia.
Qed.

Lemma split_slash_digit c s :
  is_digit c = true ->
  split_slash (String c s) = match split_slash s with
                             | p :: ps => String c p :: ps
                             | [] => [String c EmptyString]
                             end.
Proof. intros Hc. simpl. by destruct (is_digit_facts c Hc) as (-> & _). Qed.

Lemma be_fields_digits s d m y :
  be_fields s = Some (d, m, y) ->
  0 <= d <= 99 /\ 0 <= m <= 99 /\ 0 <= y <= 9999.
Proof.
  unfold be_fields.
  destruct s as [|d1 [|d2 [|s1 [|m1 [|m2 [|s2 [|y1 [|y2 [|y3 [|y4 [|? ?]]]]]]]]]]];
    try discriminate.
  destruct (dateRegex_test _) eqn:Hre; [|discriminate]. intros [= <- <- <-].
  unfold dateRegex_test in Hre. rewrite !andb_true_iff in Hre.
  destruct Hre as (((((((((H1 & H2) & _) & H3) & H4) & _) & H5) & H6) & H7) & H8).
  apply is_digit_facts in H1 as (_ & ? & _), H2 as (_ & ? & _), H3 as (_ & ? & _),
    H4 as (_ & ? & _), H5 as (_ & ? & _), H6 as (_ & ? & _), H7 as (_ & ? & _),
    H8 as (_ & ? & _).
  unfold two_digits, four_digits. lia.
Qed.

Section DateFacts.
Context `{JsHost}.

(** On a string of the form DD/MM/YYYY, [beDateToTimestamp] is the time
    of the date with 543 taken from the year. *)
Lemma beDateToTimestamp_fields s d m y :
  be_fields s = Some (d, m, y) ->
  beDateToTimestamp s = Date_ymd (Some (y - 543)) (Some (m - 1)) (Some d).
Proof.
  unfold be_fields.
  destruct s as [|d1 [|d2 [|s1 [|m1 [|m2 [|s2 [|y1 [|y2 [|y3 [|y4 [|? ?]]]]]]]]]]];
    try discriminate.
  destruct (dateRegex_test _) eqn:Hre; [|discriminate]. intros [= <- <- <-].
  unfold dateRegex_test in Hre. rewrite !andb_true_iff in Hre.
  destruct Hre as (((((((((H1 & H2) & ->%Ascii.eqb_eq) & H3) & H4) & ->%Ascii.eqb_eq)
                      & H5) & H6) & H7) & H8).
  unfold beDateToTimestamp.
  change (String.eqb (String d1 _) "") with false. cbv iota.
  rewrite (split_slash_digit d1), (split_slash_digit d2) by done.
  change (split_slash (String "/" ?s)) with (EmptyString :: split_slash s).
  rewrite (split_slash_digit m1), (split_slash_digit m2) by done.
  change (split_slash (String "/" ?s)) with (EmptyString :: split_slash s).
  rewrite (split_slash_digit y1), (split_slash_digit y2), (split_slash_digit y3),
    (split_slash_digit y4) by done.
  change (split_slash EmptyString) with [EmptyString]. cbv iota.
  by rewrite parseInt_two, parseInt_two, parseInt_four.
Qed.

Lemma Date_ymd_value y m d :
  ~ (0 <= y <= 99) ->
  -1000 <= y <= 10000 -> calendar_date y m d ->
  Z.abs LocalTZA <= msPerDay ->
  Date_ymd (Some y) (Some (m - 1)) (Some d) = Some (MakeDay y (m - 1) d * msPerDay - LocalTZA).
Proof.
  intros Hy Hr Hc Htz. unfold Date_ymd. simpl.
  replace ((0 <=? y) && (y <=? 99)) with false
    by (symmetry; apply andb_false_iff; lia).
  unfold TimeClip.
  pose proof (MakeDay_within_year _ _ _ Hc) as Hw.
  pose proof (DayFromYear_bounds y Hr) as Hb.
  pose proof (DaysInYear_bounds y) as Hd. unfold msPerDay in *.
  destruct (Z.ltb_spec 8640000000000000
              (Z.abs (MakeDay y (m - 1) d * 86400000 - LocalTZA))); [lia|done].
Qed.

(** Away from the Buddhist-Era years 543 to 642 (whose Gregorian year
    has at most two digits), the times of two existing dates compare
    as their Gregorian dates do. *)
Lemma docDate_order_calendar s1 s2 g1 g2 :
  Z.abs LocalTZA <= msPerDay ->
  gregorian_of s1 = Some g1 -> gregorian_of s2 = Some g2 ->
  ~ (0 <= g1.1.1 <= 99) -> ~ (0 <= g2.1.1 <= 99) ->
  exists t1 t2,
    beDateToTimestamp s1 = Some t1 /\ beDateToTimestamp s2 = Some t2
    /\ (t1 < t2 <-> calendar_lt g1 g2).
Proof.
  intros Htz Hg1 Hg2 Hy1 Hy2. unfold gregorian_of in *.
  destruct (be_fields s1) as [[[d1 m1] y1]|] eqn:Hf1; [|done].
  destruct (be_fields s2) as [[[d2 m2] y2]|] eqn:Hf2; [|done].
  simpl in Hg1, Hg2.
  destruct (decide (calendar_date (y1 - 543) m1 d1)) as [Hc1|]; [|done].
  destruct (decide (calendar_date (y2 - 543) m2 d2)) as [Hc2|]; [|done].
  injection Hg1 as <-. injection Hg2 as <-. simpl in Hy1, Hy2.
  pose proof (be_fields_digits _ _ _ _ Hf1) as (_ & _ & ?).
  pose proof (be_fields_digits _ _ _ _ Hf2) as (_ & _ & ?).
  rewrite (beDateToTimestamp_fields _ _ _ _ Hf1), (beDateToTimestamp_fields _ _ _ _ Hf2).
  rewrite !Date_ymd_value by (done || lia).
  eexists _, _. split; [done|]. split; [done|].
  rewrite <- MakeDay_calendar by done. unfold msPerDay. lia.
Qed.

End DateFacts.

(** The example of the specification: by date, descending, the
    document dated 01/01/2566 comes before the one dated 01/01/2565,
    whichever order they come in. *)
Lemma docDate_descending_example `{JsHost} (a b : Document) :
  Z.abs LocalTZA <= msPerDay ->
  docDate a = "01/01/2566" -> docDate b = "01/01/2565" ->
  Array_sort (compareDocs {| key := K_docDate; direction := desc |}) [a; b] = [a; b]
  /\ Array_sort (compareDocs {| key := K_docDate; direction := desc |}) [b; a] = [a; b].
Proof.
  intros Htz Ha Hb.
  assert (Hta : beDateToTimestamp (docDate a) = Some (19358 * msPerDay - LocalTZA)).
  { rewrite Ha, (beDateToTimestamp_fields _ 1 1 2566) by reflexivity.
    rewrite (Date_ymd_value 2023 1 1); [reflexivity|lia|lia| |done].
    split; [lia|]. vm_compute. split; discriminate. }
  assert (Htb : beDateToTimestamp (docDate b) = Some (18993 * msPerDay - LocalTZA)).
  { rewrite Hb, (beDateToTimestamp_fields _ 1 1 2565) by reflexivity.
    rewrite (Date_ymd_value 2022 1 1); [reflexivity|lia|lia| |done].
    split; [lia|]. vm_compute. split; discriminate. }
  unfold Array_sort, compareDocs. simpl. rewrite Hta, Htb. simpl.
  unfold msPerDay.
  destruct (Z.leb_spec (18993 * 86400000 - LocalTZA - (19358 * 86400000 - LocalTZA)) 0);
    [|lia].
  destruct (Z.leb_spec (19358 * 86400000 - LocalTZA - (18993 * 86400000 - LocalTZA)) 0);
    [lia|done].
Qed.

(** C6, at the dates 01/01/0600 and 01/01/2400 of the Buddhist Era.
    Less 543 years they are 1 January 57 and 1 January 1857, so the
    first is the earlier date; [new Date(57, 0, 1)] is 1 January 1957,
    so by date, descending, the first is shown above the second. *)
Theorem docDate_two_digit_year :
  let early := mkDoc "doc_1" "1/0600" "กองคลัง" "งบประมาณ" "01/01/0600" "" []
                 "2024-05-01T03:00:00.000Z" in
  let late := mkDoc "doc_2" "2/2400" "กองแผน" "แผนงาน" "01/01/2400" "" []
                "2024-05-02T03:00:00.000Z" in
  let st := @renderResultsTable example_host [late; early] TITLE_RESULTS (initial_state [late; early]) in
  gregorian_of "01/01/0600" = Some (57, 1, 1)
  /\ gregorian_of "01/01/2400" = Some (1857, 1, 1)
  /\ calendar_lt (57, 1, 1) (1857, 1, 1)
  /\ @beDateToTimestamp example_host "01/01/0600"
     = Some (MakeDay 1957 0 1 * msPerDay - @LocalTZA example_host)
  /\ @beDateToTimestamp example_host "01/01/2400"
     = Some (MakeDay 1857 0 1 * msPerDay - @LocalTZA example_host)
  /\ currentSort (@sortHeaderClick example_host K_docDate st)
     = {| key := K_docDate; direction := desc |}
  /\ displayed (@sortHeaderClick example_host K_docDate st) = [early; late].
Proof.
  intros early late st. split_and!; try reflexivity.
  unfold calendar_lt. lia.
Qed.

(** ** The date input *)

(** The rest of [formatDateInput], on the digits of the input. *)
Lemma formatDateInput_digits input :
  formatDateInput input =
    let value := only_digits input in
    let value :=
      if (2 <? String.length value)%nat
      then slice 0 2 value +:+ "/" +:+ drop_chars 2 value
      else value in
    if (5 <? String.length value)%nat
    then slice 0 5 value +:+ "/" +:+ slice 5 9 value
    else value.
Proof. reflexivity. Qed.

Lemma only_digits_all_digit s : all_digit (only_digits s) = true.
Proof.
  induction s as [|c s IH]; simpl; [done|].
  destruct (is_digit c) eqn:Hc; simpl; [by rewrite Hc|done].
Qed.

Lemma only_digits_id s : all_digit s = true -> only_digits s = s.
Proof.
  induction s as [|c s IH]; simpl; [done|].
  intros [-> Hs]%andb_true_iff. by rewrite IH.
Qed.

Lemma is_digit_slash : is_digit "/" = false.
Proof. reflexivity. Qed.

Ltac digits_cases d H :=
  let rec go d H n :=
    lazymatch n with
    | O => idtac
    | S ?n' =>
        let c := fresh "c" in
        let Hc := fresh "Hc" in
        destruct d as [|c d];
        [|cbn [all_digit] in H; apply andb_true_iff in H as [Hc H]; go d H n']
    end in
  go d H 9%nat.

(** The digits of a formatted value are the first eight digits typed,
    and they alone decide the formatted value. *)
Lemma formatDateInput_first_eight input :
  only_digits (formatDateInput input) = take_chars 8 (only_digits input)
  /\ formatDateInput (take_chars 8 (only_digits input)) = formatDateInput input.
Proof.
  rewrite !formatDateInput_digits.
  pose proof (only_digits_all_digit input) as H.
  destruct (only_digits input) as [|c1 d] eqn:Hd; [done|].
  clear Hd. cbn [all_digit] in H. apply andb_true_iff in H as [H1 H].
  digits_cases d H;
    repeat (cbv -[is_digit]; rewrite ?H1, ?Hc, ?Hc0, ?Hc1, ?Hc2, ?Hc3, ?Hc4, ?Hc5, ?Hc6, ?Hc7);
    done.
Qed.

Lemma take_chars_idemp n s : take_chars n (take_chars n s) = take_chars n s.
Proof.
  revert s. induction n as [|n IH]; intros [|c s]; simpl; try done. by rewrite IH.
Qed.

(** X1.  The formatted value passes the date pattern of the forms
    exactly when the user has typed at least eight digits, whatever
    else was typed between them. *)
Theorem formatDateInput_valid_iff (input : string) :
  dateRegex_test (formatDateInput input) = true
  <-> (8 <= String.length (only_digits input))%nat.
Proof.
  rewrite formatDateInput_digits.
  pose proof (only_digits_all_digit input) as H.
  destruct (only_digits input) as [|c1 d] eqn:Hd; [by split; [|simpl; lia]|].
  clear Hd. cbn [all_digit] in H. apply andb_true_iff in H as [H1 H].
  digits_cases d H;
    repeat (cbv -[is_digit Nat.le]; rewrite ?H1, ?Hc, ?Hc0, ?Hc1, ?Hc2, ?Hc3, ?Hc4, ?Hc5, ?Hc6, ?Hc7);
    (split; [try done; try (rewrite ?is_digit_slash; done)|try lia; try done]).
  all: try (intros _; simpl; lia).
Qed.

(** X2.  A value that already has the form DD/MM/YYYY is left as it
    is. *)
Theorem formatDateInput_fixes_valid (s : string) :
  dateRegex_test s = true -> formatDateInput s = s.
Proof.
  destruct s as [|d1 [|d2 [|s1 [|m1 [|m2 [|s2 [|y1 [|y2 [|y3 [|y4 [|? ?]]]]]]]]]]];
    try discriminate.
  unfold dateRegex_test. rewrite !andb_true_iff.
  intros (((((((((H1 & H2) & ->%Ascii.eqb_eq) & H3) & H4) & ->%Ascii.eqb_eq)
             & H5) & H6) & H7) & H8).
  rewrite formatDateInput_digits.
  repeat (cbv -[is_digit]; rewrite ?H1, ?H2, ?H3, ?H4, ?H5, ?H6, ?H7, ?H8, ?is_digit_slash).
  done.
Qed.

Lemma formatDateInput_fixes_valid_witness : formatDateInput "01/01/2566" = "01/01/2566".
Proof. apply (formatDateInput_fixes_valid "01/01/2566"). reflexivity. Defined.

(** X3.  Formatting is idempotent, and the formatted value has at most
    ten characters, all of them digits or slashes. *)
Theorem formatDateInput_idempotent (input : string) :
  formatDateInput (formatDateInput input) = formatDateInput input
  /\ digits_and_slashes (formatDateInput input) = true
  /\ (String.length (formatDateInput input) <= 10)%nat.
Proof.
  split.
  - destruct (formatDateInput_first_eight input) as [Hd Hf].
    destruct (formatDateInput_first_eight (formatDateInput input)) as [_ Hf'].
    by rewrite <- Hf', Hd, take_chars_idemp.
  - rewrite formatDateInput_digits.
    pose proof (only_digits_all_digit input) as H.
    destruct (only_digits input) as [|c1 d] eqn:Hd; [by split; [|simpl; lia]|].
    clear Hd. cbn [all_digit] in H. apply andb_true_iff in H as [H1 H].
    digits_cases d H;
      repeat (cbv -[is_digit Nat.le];
              rewrite ?H1, ?Hc, ?Hc0, ?Hc1, ?Hc2, ?Hc3, ?Hc4, ?Hc5, ?Hc6, ?Hc7);
      (split; [done|simpl; lia]).
Qed.

(** ** More on the remote store client *)

Section RemoteMore.
Context `{JsHost}.

Lemma sync_first_decisive net action payload retries delay k :
  (k <= retries)%nat ->
  (forall j, (j < k)%nat -> retryable (net j)) ->
  ~ retryable (net k) ->
  fetches (fst (syncWithGoogleSheet net action payload retries delay)) = S k
  /\ snd (syncWithGoogleSheet net action payload retries delay) = attempt (net k).
Proof.
  revert net retries delay. induction k as [|k IH]; intros net retries delay Hk Hbefore Hlast.
  - by rewrite sync_final.
  - destruct retries as [|retries]; [lia|].
    rewrite sync_retry by (apply Hbefore; lia). cbn.
    destruct (IH (fun j => net (S j)) retries (delay * 2)) as [Hf Hr];
      [lia|intros j Hj; apply Hbefore; lia|done|].
    by rewrite Hf, Hr.
Qed.

(** What [parse_response] makes of a body, case by case. *)
Lemma parse_response_cases body :
  parse_response body =
    match JSON_parse body with
    | None | Some JNull => Throw (JsError ErrorK MSG_INVALID_RESPONSE)
    | Some (JObj o) =>
        match o !! "success" with
        | Some (JBool false) => Throw (JsError ErrorK MSG_INVALID_RESPONSE)
        | _ => Ok (o !! "data")
        end
    | Some _ => Ok None
    end.
Proof.
  unfold parse_response. destruct (JSON_parse body) as [[| | | | |o]|]; try reflexivity.
  simpl. destruct (o !! "success") as [[|[]| | | |]|]; reflexivity.
Qed.

End RemoteMore.

(** X4.  [execute] ends with the first attempt that does not fail to
    fetch: if the attempts before attempt [k] (the first, second or
    third) failed to fetch and attempt [k] does not, exactly [k] delays
    were waited and the outcome of attempt [k], data or error, is the
    outcome of [execute]. *)
Theorem execute_first_decisive `{JsHost} (net : Network) (action : string)
    (payload : Payload) (k : nat) :
  (k <= 2)%nat ->
  (forall j, (j < k)%nat -> retryable (net j)) ->
  ~ retryable (net k) ->
  fetches (fst (execute net action payload)) = S k
  /\ waits (fst (execute net action payload)) = firstn k [1000; 2000]
  /\ snd (execute net action payload) = attempt (net k).
Proof.
  intros Hk Hbefore Hlast. unfold execute.
  destruct (sync_first_decisive net action payload 2 1000 k Hk Hbefore Hlast) as [Hf Hr].
  split; [done|]. split; [|done].
  pose proof (sync_waits net action payload 2 1000) as Hw. cbn zeta in Hw.
  rewrite Hw, Hf. simpl. rewrite Nat.sub_0_r.
  destruct k as [|[|[|k]]]; try reflexivity. lia.
Qed.

Lemma execute_first_decisive_witness :
  let net := fun k => match k with O => failed_to_fetch | _ => respond BODY_OK end in
  fetches (fst (@execute example_host net "read" PEmpty)) = 2%nat
  /\ waits (fst (@execute example_host net "read" PEmpty)) = [1000]
  /\ snd (@execute example_host net "read" PEmpty) = Ok None.
Proof.
  intros net.
  apply (@execute_first_decisive example_host net "read" PEmpty 1).
  - lia.
  - intros [|j] Hj; [|lia]. exists (JsError TypeErrorK "Failed to fetch"). by split.
  - intros (e & He & _). discriminate.
Defined.

(** X5.  An attempt answered with status 2xx succeeds unless the body
    does not parse, parses to [null], or parses to a structure whose
    [success] is exactly [false]: a structure without [success], or
    with any other value of it, yields its [data], and any other JSON
    value (a number, a text, an array) counts as success without
    data. *)
Theorem attempt_succeeds_iff `{JsHost} (response : Response) (body : string) :
  ok response = true -> text response = Ok body ->
  forall data,
    attempt (Resolved response) = Ok data
    <-> exists v, JSON_parse body = Some v
                  /\ v <> JNull
                  /\ match v with
                     | JObj o => o !! "success" <> Some (JBool false) /\ data = o !! "data"
                     | _ => data = None
                     end.
Proof.
  intros Hok Htext data.
  assert (Ha : attempt (Resolved response) = parse_response body)
    by (simpl; by rewrite Hok, Htext).
  rewrite Ha, parse_response_cases.
  destruct (JSON_parse body) as [v|] eqn:Hp.
  2: { split; [done|]. by intros (v & ? & _). }
  destruct v as [| | | | |o].
  - split; [done|]. by intros (v & [= <-] & Hn & _).
  - split; [intros [= <-]; eexists; by split_and! | by intros (v & [= <-] & _ & ->)].
  - split; [intros [= <-]; eexists; by split_and! | by intros (v & [= <-] & _ & ->)].
  - split; [intros [= <-]; eexists; by split_and! | by intros (v & [= <-] & _ & ->)].
  - split; [intros [= <-]; eexists; by split_and! | by intros (v & [= <-] & _ & ->)].
  - destruct (o !! "success") as [[|[]| | | |]|] eqn:Hs;
      (split; [intros [= <-]; eexists; split_and!; try done; simpl; split; congruence
              | intros (v & [= <-] & _ & Hn & ->); congruence]).
Qed.

Lemma attempt_succeeds_iff_witness :
  @attempt example_host (respond BODY_OK) = Ok None.
Proof.
  apply (@attempt_succeeds_iff example_host
           {| ok := true; status := 200; text := Ok BODY_OK |} BODY_OK eq_refl eq_refl).
  eexists. split; [reflexivity|]. split; [discriminate|].
  split; [vm_compute; discriminate|vm_compute; reflexivity].
Defined.

(** X6.  A read answered with success and without [data] replaces the
    collection by [undefined]; the next search with a non-empty query
    then throws a [TypeError]. *)
Theorem read_without_data_breaks_search `{JsHost} (net : Network) (current : option JsValue)
    (response : Response) (body : string) (o : gmap string JsValue) (input : string) :
  net 0%nat = Resolved response -> ok response = true -> text response = Ok body ->
  JSON_parse body = Some (JObj o) ->
  o !! "success" <> Some (JBool false) ->
  o !! "data" = None ->
  trim (toLowerCase input) <> "" ->
  initialSync_documents net current = None
  /\ raw_handleSearch (initialSync_documents net current) input = engine_throw TypeErrorK.
Proof.
  intros Hnet Hok Htext Hparse Hs Hdata Hq.
  rewrite (initialSync_stores_data net current response body o) by done.
  rewrite Hdata. split; [done|]. unfold raw_handleSearch.
  by destruct (String.eqb_spec (trim (toLowerCase input)) "").
Qed.

Lemma read_without_data_breaks_search_witness :
  @raw_handleSearch example_host
    (@initialSync_documents example_host (always (respond BODY_OK)) (Some (JArr []))) "abc"
  = @engine_throw example_host _ TypeErrorK.
Proof.
  apply (@read_without_data_breaks_search example_host (always (respond BODY_OK))
           (Some (JArr [])) {| ok := true; status := 200; text := Ok BODY_OK |} BODY_OK
           {["success" := JBool true]} "abc"); try reflexivity; discriminate.
Defined.

(** ** Saving a new document *)


Lemma validateEditForm_invalid form :
  validateEditForm form <> [] <-> edit_form_invalid form.
Proof.
  unfold validateEditForm, editInlineErrors, edit_form_invalid.
  destruct (String.eqb_spec (trim (edit_docNumber form)) "") as [->|?];
    [split; [auto|done]|].
  destruct (String.eqb_spec (trim (edit_docDate form)) "") as [He|?].
  { rewrite He. split; [auto|done]. }
  destruct (dateRegex_test (trim (edit_docDate form))) eqn:Hre; simpl;
    [|split; [auto|done]].
  destruct (String.eqb_spec (trim (edit_source form)) "") as [->|?];
    [split; [auto|done]|].
  destruct (String.eqb_spec (trim (edit_subject form)) "") as [->|?];
    [split; [auto|done]|].
  simpl. split; [done|]. intros [?|[?|[?|?]]]; done.
Qed.




Section SaveFacts.
Context `{JsHost}.


Lemma saveDocuments_view st st' :
  saveDocuments st = Ok st' ->
  editAttachmentInput st' = editAttachmentInput st
  /\ attachmentInput st' = attachmentInput st
  /\ editErrors st' = editErrors st.
Proof.
  unfold saveDocuments, localStorage_setItem.
  destruct (setItem_throws (documents st)); simpl; [done|]. intros [= <-].
  match goal with |- context [rerender ?s] =>
    destruct (rerender_view s) as (_ & _ & _ & _ & _ & -> & -> & -> & _) end.
  by repeat split.
Qed.

(** The state that a save accepted by the remote store leaves: the
    document is in front of the collection, whether or not the cache
    takes the write. *)
Lemma handleSaveDocument_commit env form st doc :
  save_commits env form st doc ->
  exists st',
    handleSaveDocument env form st = Some (st', [])
    /\ documents st' = doc :: documents st
    /\ remoteLog st' = remoteLog st ++ fst (execute (store env) "create" (PDocument doc))
    /\ match setItem_throws (doc :: documents st) with
       | None =>
           localStorage st' = doc :: documents st
           /\ cacheWrites st' = S (cacheWrites st)
           /\ toasts st' = toasts st ++ [(MSG_SAVED, success)]
           /\ files (attachmentInput st') = None
       | Some e =>
           localStorage st' = localStorage st
           /\ cacheWrites st' = cacheWrites st
           /\ toasts st' = toasts st ++ [(errorMessage e MSG_SAVE_FAILED, error)]
           /\ files (attachmentInput st') = files (attachmentInput st)
       end.
Proof.
  intros (Hvalid & tgs & file & v & Hk & Henc & -> & Hex).
  unfold handleSaveDocument. cbn zeta. rewrite Hvalid, Hk.
  cbn [attachmentInput set_fileInput set_hint files].
  assert (Henc' : encode_attachment
                    {| files := files (attachmentInput st);
                       displayArea := displayArea (attachmentInput st);
                       errorElement := ""; invalid := false |}
                  = encode_attachment (attachmentInput st)) by reflexivity.
  rewrite Henc', Henc. clear Henc'.
  destruct (execute (store env) "create" (PDocument (newDocument env form tgs file)))
    as [tr r] eqn:Hexec. simpl in Hex. subst r.
  match goal with |- context [saveDocuments ?s] =>
    destruct (saveDocuments s) as [s'|e] eqn:Hsave end.
  - pose proof (saveDocuments_view _ _ Hsave) as (_ & Ha & _).
    apply saveDocuments_Ok in Hsave as (Hn & Hd & Hl & Hc & Ht & Hr).
    cbn [documents set_documents log_remote set_fileInput set_hint] in Hn.
    eexists. split; [reflexivity|].
    cbn [documents localStorage cacheWrites toasts remoteLog attachmentInput
         set_fileInput showToast files fst].
    rewrite Hd, Hl, Hc, Ht, Hr, Hn. by split_and!.
  - apply saveDocuments_Throw in Hsave.
    cbn [documents set_documents log_remote set_fileInput set_hint] in Hsave.
    eexists. split; [reflexivity|]. rewrite Hsave. by split_and!.
Qed.

(** A save is either accepted by the remote store or leaves
    collection and cache alone. *)
Lemma handleSaveDocument_cases env form st st' errs :
  handleSaveDocument env form st = Some (st', errs) ->
  (exists doc, save_commits env form st doc)
  \/ (documents st' = documents st
      /\ localStorage st' = localStorage st
      /\ cacheWrites st' = cacheWrites st
      /\ same_rendering st st'
      /\ ((validateSaveForm form <> [] /\ toasts st' = toasts st
           /\ remoteLog st' = remoteLog st)
          \/ (errs = [] /\ exists e, toasts st' = toasts st
                                       ++ [(errorMessage e MSG_SAVE_FAILED, error)]))).
Proof.
  unfold handleSaveDocument. cbn zeta.
  destruct (validateSaveForm form) as [|err errs0] eqn:Hvalid.
  2: { intros [= <- <-]. right. split_and!; try done. by left. }
  destruct (read_keywords env) as [tgs| |e] eqn:Hk; [|done|].
  2: { intros [= <- <-]. right. split_and!; try done. right. eauto. }
  cbn [attachmentInput set_fileInput set_hint files].
  assert (Henc' : encode_attachment
                    {| files := files (attachmentInput st);
                       displayArea := displayArea (attachmentInput st);
                       errorElement := ""; invalid := false |}
                  = encode_attachment (attachmentInput st)) by reflexivity.
  rewrite Henc'. clear Henc'.
  destruct (encode_attachment (attachmentInput st)) as [file|e] eqn:Henc.
  2: { intros [= <- <-]. right. split_and!; try done. right. eauto. }
  destruct (execute (store env) "create" (PDocument (newDocument env form tgs file)))
    as [tr [v|e]] eqn:Hexec.
  2: { intros [= <- <-]. right. split_and!; try done. right. eauto. }
  intros _. left. exists (newDocument env form tgs file).
  split; [done|]. exists tgs, file, v. by rewrite Hexec.
Qed.

End SaveFacts.











(** ** Updating a document *)

Lemma is_digit_no_line_break c :
  is_digit c = true -> Ascii.eqb c "010" || Ascii.eqb c "013" = false.
Proof. destruct c as [[] [] [] [] [] [] [] []]; try discriminate; reflexivity. Qed.

(** A date of the form DD/MM/YYYY has no line break. *)
Lemma dateRegex_no_line_break s : dateRegex_test s = true -> no_line_break s.
Proof.
  unfold no_line_break.
  destruct s as [|d1 [|d2 [|s1 [|m1 [|m2 [|s2 [|y1 [|y2 [|y3 [|y4 [|? ?]]]]]]]]]]];
    try discriminate.
  unfold dateRegex_test. rewrite !andb_true_iff.
  intros (((((((((H1 & H2) & ->%Ascii.eqb_eq) & H3) & H4) & ->%Ascii.eqb_eq)
               & H5) & H6) & H7) & H8).
  cbn [strip_newlines].
  rewrite (is_digit_no_line_break d1), (is_digit_no_line_break d2),
    (is_digit_no_line_break m1), (is_digit_no_line_break m2),
    (is_digit_no_line_break y1), (is_digit_no_line_break y2),
    (is_digit_no_line_break y3), (is_digit_no_line_break y4) by done.
  reflexivity.
Qed.

Section UpdateFacts.
Context `{JsHost}.

(** The state that an update accepted by the remote store leaves: the
    entry is replaced, whether or not the cache takes the write. *)
Lemma handleUpdateDocument_commit net form st i old file v :
  validateEditForm form = [] ->
  list_find (fun d => id d = edit_docId form) (documents st) = Some (i, old) ->
  encode_attachment (editAttachmentInput st) = Ok file ->
  snd (execute net "update" (PDocument (updatedDocData old form file))) = Ok v ->
  snd (handleUpdateDocument net form st) = None
  /\ documents (fst (handleUpdateDocument net form st))
     = <[i := updatedDocData old form file]> (documents st)
  /\ attachmentInput (fst (handleUpdateDocument net form st)) = attachmentInput st
  /\ match setItem_throws (<[i := updatedDocData old form file]> (documents st)) with
     | None =>
         localStorage (fst (handleUpdateDocument net form st))
         = <[i := updatedDocData old form file]> (documents st)
         /\ cacheWrites (fst (handleUpdateDocument net form st)) = S (cacheWrites st)
         /\ toasts (fst (handleUpdateDocument net form st))
            = toasts st ++ [(MSG_UPDATED, success)]
         /\ files (editAttachmentInput (fst (handleUpdateDocument net form st))) = None
     | Some e =>
         localStorage (fst (handleUpdateDocument net form st)) = localStorage st
         /\ cacheWrites (fst (handleUpdateDocument net form st)) = cacheWrites st
         /\ toasts (fst (handleUpdateDocument net form st))
            = toasts st ++ [(errorMessage e MSG_UPDATE_FAILED, error)]
         /\ files (editAttachmentInput (fst (handleUpdateDocument net form st)))
            = files (editAttachmentInput st)
     end.
Proof.
  intros Hvalid Hfind Henc Hex.
  pose proof Hfind as (Hi & _ & _)%list_find_Some.
  unfold handleUpdateDocument. cbn zeta. rewrite Hvalid.
  cbn [documents set_editErrors set_hint set_fileInput editAttachmentInput files].
  unfold findIndex_id. rewrite Hfind. cbn [fmap option_fmap option_map fst]. rewrite Hi.
  assert (Henc' : encode_attachment
                    {| files := files (editAttachmentInput st);
                       displayArea := displayArea (editAttachmentInput st);
                       errorElement := ""; invalid := false |}
                  = encode_attachment (editAttachmentInput st)) by reflexivity.
  rewrite Henc', Henc. clear Henc'.
  destruct (execute net "update" (PDocument (updatedDocData old form file))) as [tr r].
  simpl in Hex. subst r.
  match goal with |- context [saveDocuments ?s] =>
    destruct (saveDocuments s) as [s'|e] eqn:Hsave end.
  - pose proof (saveDocuments_view _ _ Hsave) as (_ & Ha & _).
    apply saveDocuments_Ok in Hsave as (Hn & Hd & Hl & Hc & Ht & _).
    cbn [documents set_documents log_remote set_editErrors set_hint set_fileInput] in Hn.
    cbn [fst snd documents localStorage cacheWrites toasts editAttachmentInput attachmentInput
         showToast set_fileInput files].
    rewrite Hd, Hl, Hc, Ht, Ha, Hn. by split_and!.
  - apply saveDocuments_Throw in Hsave.
    cbn [documents set_documents log_remote set_editErrors set_hint set_fileInput] in Hsave.
    rewrite Hsave. by split_and!.
Qed.

(** An update is either accepted by the remote store or leaves
    collection and cache alone. *)
Lemma handleUpdateDocument_cases net form st :
  (exists i old file v,
      validateEditForm form = []
      /\ list_find (fun d => id d = edit_docId form) (documents st) = Some (i, old)
      /\ encode_attachment (editAttachmentInput st) = Ok file
      /\ snd (execute net "update" (PDocument (updatedDocData old form file))) = Ok v)
  \/ (documents (fst (handleUpdateDocument net form st)) = documents st
      /\ localStorage (fst (handleUpdateDocument net form st)) = localStorage st
      /\ cacheWrites (fst (handleUpdateDocument net form st)) = cacheWrites st
      /\ same_rendering st (fst (handleUpdateDocument net form st))
      /\ (toasts (fst (handleUpdateDocument net form st)) = toasts st
          \/ exists e, toasts (fst (handleUpdateDocument net form st))
                       = toasts st ++ [(errorMessage e MSG_UPDATE_FAILED, error)])).
Proof.
  destruct (validateEditForm form) as [|err errs] eqn:Hvalid.
  2: { right. unfold handleUpdateDocument. cbn zeta. rewrite Hvalid.
       split_and!; try done. by left. }
  destruct (list_find (fun d => id d = edit_docId form) (documents st)) as [[i old]|] eqn:Hfind.
  2: { right. unfold handleUpdateDocument. cbn zeta. rewrite Hvalid.
       cbn [documents set_editErrors set_hint set_fileInput].
       unfold findIndex_id. rewrite Hfind. split_and!; try done. by left. }
  pose proof Hfind as (Hi & _ & _)%list_find_Some.
  assert (Henc' : encode_attachment
                    {| files := files (editAttachmentInput st);
                       displayArea := displayArea (editAttachmentInput st);
                       errorElement := ""; invalid := false |}
                  = encode_attachment (editAttachmentInput st)) by reflexivity.
  destruct (encode_attachment (editAttachmentInput st)) as [file|e] eqn:Henc.
  2: { right. unfold handleUpdateDocument. cbn zeta. rewrite Hvalid.
       cbn [documents set_editErrors set_hint set_fileInput editAttachmentInput files].
       unfold findIndex_id. rewrite Hfind. cbn [fmap option_fmap option_map fst]. rewrite Hi.
       rewrite Henc'. split_and!; try done. by left. }
  destruct (snd (execute net "update" (PDocument (updatedDocData old form file))))
    as [v|e] eqn:Hex.
  - left. by exists i, old, file, v.
  - right. unfold handleUpdateDocument. cbn zeta. rewrite Hvalid.
    cbn [documents set_editErrors set_hint set_fileInput editAttachmentInput files].
    unfold findIndex_id. rewrite Hfind. cbn [fmap option_fmap option_map fst]. rewrite Hi.
    rewrite Henc'.
    destruct (execute net "update" (PDocument (updatedDocData old form file))) as [tr r].
    simpl in Hex. subst r. split_and!; try done. right. by exists e.
Qed.

End UpdateFacts.



(** X13.  An update has three outcomes.  The remote store accepts it
    and the cache takes the write: one entry of the collection is
    replaced, the collection is written to the cache once and a
    success toast is shown.  The remote store accepts it and the
    storage refuses the write: the entry is replaced, the cache is as
    before and the error is shown in a toast.  Otherwise collection
    and cache are exactly as before. *)
Theorem update_outcomes `{JsHost} (net : Network) (form : EditForm) (st : AppState) :
  let st' := fst (handleUpdateDocument net form st) in
  (exists i old file v,
      validateEditForm form = []
      /\ list_find (fun d => id d = edit_docId form) (documents st) = Some (i, old)
      /\ encode_attachment (editAttachmentInput st) = Ok file
      /\ snd (execute net "update" (PDocument (updatedDocData old form file))) = Ok v
      /\ documents st' = <[i := updatedDocData old form file]> (documents st)
      /\ match setItem_throws (documents st') with
         | None =>
             localStorage st' = documents st'
             /\ cacheWrites st' = S (cacheWrites st)
             /\ toasts st' = toasts st ++ [(MSG_UPDATED, success)]
         | Some e =>
             localStorage st' = localStorage st
             /\ cacheWrites st' = cacheWrites st
             /\ toasts st' = toasts st ++ [(errorMessage e MSG_UPDATE_FAILED, error)]
         end)
  \/ (documents st' = documents st
      /\ localStorage st' = localStorage st
      /\ cacheWrites st' = cacheWrites st
      /\ (toasts st' = toasts st
          \/ exists e, toasts st' = toasts st ++ [(errorMessage e MSG_UPDATE_FAILED, error)])).
Proof.
  cbn zeta.
  destruct (handleUpdateDocument_cases net form st)
    as [(i & old & file & v & Hvalid & Hfind & Henc & Hex)|(Hd & Hl & Hc & _ & Ht)];
    [left|by right].
  exists i, old, file, v.
  destruct (handleUpdateDocument_commit net form st i old file v Hvalid Hfind Henc Hex)
    as (_ & Hd & _ & Hw).
  rewrite Hd. split_and!; try done.
  destruct (setItem_throws _); destruct Hw as (Hl & ? & ? & _); by rewrite Hl.
Qed.

Lemma update_outcomes_witness :
  let old := mkDoc "doc_1" "1/2566" "Finance" "Budget" "01/01/2566" "" []
               "2024-05-01T03:00:00.000Z" in
  let form := {| edit_docId := "doc_1"; edit_docNumber := "2/2566";
                 edit_docDate := "02/01/2566"; edit_source := "Plans";
                 edit_subject := "Plan"; edit_notes := "" |} in
  let st' := fst (@handleUpdateDocument full_storage_host (always (respond BODY_OK)) form
                    (initial_state [old])) in
  (docNumber <$> documents st') = ["2/2566"]
  /\ localStorage st' = [old]
  /\ toasts st' = [(MSG_QUOTA, error)].
Proof.
  intros old form st'.
  destruct (@update_outcomes full_storage_host (always (respond BODY_OK)) form
              (initial_state [old]))
    as [(i & old' & file & v & _ & _ & _ & _ & _ & Hw)|(Hd & _)].
  - simpl in Hw. destruct Hw as (Hl & _ & Ht). split_and!; [reflexivity|exact Hl|exact Ht].
  - exfalso. vm_compute in Hd. discriminate.
Defined.





(** X16.  Opening the edit form on a document and saving it unchanged
    leaves the collection as it is, for a document whose required
    fields are not blank, whose date has the form DD/MM/YYYY, whose
    document number, source and notes have no line break, whose
    subject has no carriage return, and which has no legacy second
    attachment; the cache then holds the collection, unless the
    storage refuses the write.  The edit form opens with no file
    chosen. *)
Theorem edit_round_trip `{JsHost} (net : Network) (docId : string) (st : AppState)
    (doc : Document) (v : option JsValue) :
  find_id docId (documents st) = Some doc ->
  trim (docNumber doc) <> "" -> trim (source doc) <> "" -> trim (subject doc) <> "" ->
  dateRegex_test (docDate doc) = true ->
  no_line_break (docNumber doc) -> no_line_break (source doc) -> no_line_break (notes doc) ->
  no_carriage_return (subject doc) ->
  fileName2 doc = None -> fileContent2 doc = None -> fileType2 doc = None ->
  snd (execute net "update" (PDocument doc)) = Ok v ->
  exists form,
    fst (showEditModal docId st) = Some form
    /\ files (editAttachmentInput (snd (showEditModal docId st))) = None
    /\ documents (fst (handleUpdateDocument net form (snd (showEditModal docId st))))
       = documents st
    /\ (setItem_throws (documents st) = None ->
        localStorage (fst (handleUpdateDocument net form (snd (showEditModal docId st))))
        = documents st).
Proof.
  intros Hfound Hnum Hsrc Hsubj Hre Hln Hls Hlo Hcr Hn2 Hc2 Ht2 Hex.
  pose proof (dateRegex_no_line_break _ Hre) as Hld.
  assert (Hdate : trim (docDate doc) = docDate doc).
  { clear -Hre. destruct (docDate doc)
      as [|d1 [|d2 [|s1 [|m1 [|m2 [|s2 [|y1 [|y2 [|y3 [|y4 [|? ?]]]]]]]]]]];
      try discriminate.
    unfold dateRegex_test in Hre. rewrite !andb_true_iff in Hre.
    destruct Hre as (((((((((H1 & H2) & _) & H3) & H4) & _) & H5) & H6) & H7) & H8).
    assert (Hsp : forall c, is_digit c = true -> is_space c = false).
    { intros c. destruct c as [[] [] [] [] [] [] [] []]; try discriminate; reflexivity. }
    unfold trim. cbn [trimStart]. rewrite (Hsp d1 H1).
    cbn [trimEnd]. rewrite (Hsp y4 H8). reflexivity. }
  pose proof Hfound as [i Hfind]%find_id_Some.
  pose proof Hfind as (Hi & Hid & _)%list_find_Some.
  unfold no_line_break, no_carriage_return in *.
  unfold showEditModal. rewrite Hfound. cbn [fst snd].
  rewrite Hln, Hld, Hls, Hlo, Hcr.
  eexists. split; [reflexivity|]. split; [reflexivity|].
  match goal with |- context [handleUpdateDocument net ?f ?s] =>
    set (form := f) in *; set (st0 := s) in * end.
  assert (Hvalid : validateEditForm form = []).
  { destruct (validateEditForm form) as [|err errs] eqn:Hv; [done|].
    assert (Hinv : edit_form_invalid form) by (apply validateEditForm_invalid; by rewrite Hv).
    unfold edit_form_invalid in Hinv. subst form.
    cbn [edit_docNumber edit_docDate edit_source edit_subject] in Hinv.
    rewrite Hdate, Hre in Hinv. by destruct Hinv as [?|[?|[?|?]]]. }
  assert (Hsame : updatedDocData doc form None = doc).
  { subst form. unfold updatedDocData. cbn [edit_docNumber edit_source edit_subject
      edit_docDate edit_notes]. rewrite Hdate. destruct doc. simpl in *. by subst. }
  assert (Hfind0 : list_find (fun d => id d = edit_docId form) (documents st0) = Some (i, doc)).
  { subst form st0. cbn [edit_docId documents set_fileInput]. by rewrite Hid. }
  assert (Hex0 : snd (execute net "update" (PDocument (updatedDocData doc form None))) = Ok v).
  { by rewrite Hsame. }
  destruct (handleUpdateDocument_commit net form st0 i doc None v Hvalid Hfind0 eq_refl Hex0)
    as (_ & Hd & _ & Hw).
  rewrite Hsame in Hd, Hw. subst st0. cbn [documents set_fileInput] in Hd, Hw.
  rewrite list_insert_id in Hd, Hw by done.
  split; [done|]. intros Hn. rewrite Hn in Hw. by destruct Hw as (-> & _).
Qed.

Lemma edit_round_trip_witness :
  let doc := mkDoc "doc_1" "1/2566" "Finance" "Budget" "01/01/2566" "" ["budget"]
               "2024-05-01T03:00:00.000Z" in
  let st := initial_state [doc] in
  exists form,
    fst (showEditModal "doc_1" st) = Some form
    /\ documents (fst (@handleUpdateDocument example_host (always (respond BODY_OK)) form
                         (snd (showEditModal "doc_1" st)))) = [doc].
Proof.
  intros doc st.
  destruct (@edit_round_trip example_host (always (respond BODY_OK)) "doc_1" st doc None)
    as (form & Hform & _ & Hd & _); try reflexivity; try discriminate.
  exists form. split; [exact Hform|exact Hd].
Defined.

(** ** What every action keeps *)

Lemma same_view_refl st : same_view st st.
Proof. by repeat split. Qed.

Section StepFacts.
Context `{JsHost}.

(** The shapes of the state after one action: nothing of the data or
    the rendering has changed; the collection was written to the cache
    and the view rendered again; the storage has refused the
    collection, and the rendering is the old one; a search; a click on
    a header; the store tab. *)
Lemma step_shape a st st' :
  step a st = Some st' ->
  same_view st st'
  \/ (exists s s0, saveDocuments s = Ok s0 /\ same_view s0 st'
                   /\ cacheWrites s = cacheWrites st
                   /\ same_rendering st s)
  \/ (setItem_throws (documents st') <> None
      /\ localStorage st' = localStorage st
      /\ cacheWrites st' = cacheWrites st
      /\ same_rendering st st')
  \/ (exists s, st' = handleSearch s
                /\ documents s = documents st
                /\ localStorage s = localStorage st
                /\ cacheWrites s = cacheWrites st)
  \/ (exists k, st' = sortHeaderClick k st)
  \/ st' = storeTabClick st.
Proof.
  destruct a as [input| | |k|i selected|net confirmed docId|net form|docId|env form]; simpl.
  - intros [= <-]. right; right; right; left. by eexists.
  - intros [= <-]. right; right; right; left. by eexists.
  - intros [= <-]. by repeat right.
  - intros [= <-]. right; right; right; right; left. by eexists.
  - intros [= <-]. left. by repeat split.
  - intros [= <-]. unfold handleDeleteDocument.
    destruct (find_id docId (documents st)); [|left; apply same_view_refl].
    destruct confirmed; [|left; apply same_view_refl].
    destruct (execute net "delete" (PId docId)) as [tr [v|e]].
    + destruct (saveDocuments _) as [s0|e] eqn:Hsave.
      * right; left. eexists _, s0. split; [exact Hsave|]. by repeat split.
      * right; right; left. apply saveDocuments_Throw in Hsave.
        split; [|by repeat split]. intros Hn. cbn in Hsave, Hn. congruence.
    + left. by repeat split.
  - intros [= <-]. unfold handleUpdateDocument. cbn zeta.
    destruct (validateEditForm form); [|left; by repeat split].
    destruct (findIndex_id _ _); [|left; by repeat split].
    destruct (_ !! _); [|left; by repeat split].
    destruct (encode_attachment _); [|left; by repeat split].
    destruct (execute _ _ _) as [tr [v|e]]; cbn [fst].
    + destruct (saveDocuments _) as [s0|e] eqn:Hsave; cbn [fst].
      * right; left. eexists _, s0. split; [exact Hsave|]. by repeat split.
      * right; right; left. apply saveDocuments_Throw in Hsave.
        split; [|by repeat split]. intros Hn. cbn in Hsave, Hn. congruence.
    + left. by repeat split.
  - intros [= <-]. unfold showEditModal.
    destruct (find_id docId (documents st)); left; by repeat split.
  - unfold handleSaveDocument. cbn zeta.
    destruct (validateSaveForm form); [|intros [= <-]; left; by repeat split].
    destruct (read_keywords env); [|done|intros [= <-]; left; by repeat split].
    destruct (encode_attachment _); [|intros [= <-]; left; by repeat split].
    destruct (execute _ _ _) as [tr [v|e]].
    + destruct (saveDocuments _) as [s0|e] eqn:Hsave; intros [= <-].
      * right; left. eexists _, s0. split; [exact Hsave|]. by repeat split.
      * right; right; left. apply saveDocuments_Throw in Hsave.
        split; [|by repeat split]. intros Hn. cbn in Hsave, Hn. congruence.
    + intros [= <-]. left. by repeat split.
Qed.

Lemma step_cache a st st' :
  step a st = Some st' ->
  (cache_follows st -> cache_follows st')
  /\ (cacheWrites st <= cacheWrites st' <= S (cacheWrites st))%nat.
Proof.
  unfold cache_follows.
  intros [Hv|[(s & s0 & Hsave & Hv & Hc & _)|[(Hthrows & Hl & Hc & _)
         |[(s & -> & Hd & Hl & Hc)|[[k ->]| ->]]]]]%step_shape.
  - destruct Hv as (-> & -> & -> & _). split; [done|lia].
  - destruct Hv as (-> & -> & -> & _).
    apply saveDocuments_Ok in Hsave as (_ & -> & -> & -> & _). rewrite Hc. split; [done|lia].
  - rewrite Hc. split; [done|lia].
  - destruct (handleSearch_view s) as (-> & -> & -> & _). rewrite Hd, Hl, Hc. split; [done|lia].
  - destruct (sortHeaderClick_view k st) as (-> & -> & -> & _). split; [done|lia].
  - split; [done|simpl; lia].
Qed.

Lemma elem_of_Array_sort {A} (cmp : A -> A -> option Z) (l : list A) (x : A) :
  x ∈ Array_sort cmp l <-> x ∈ l.
Proof. by rewrite (Array_sort_perm cmp l). Qed.

Lemma renderRecentDocuments_rows s :
  (forall d, d ∈ displayed (renderRecentDocuments s) -> d ∈ documents s)
  /\ (table_shown (renderRecentDocuments s) ->
      forall d, d ∈ lastRenderedDocs (renderRecentDocuments s) -> d ∈ documents s).
Proof.
  unfold renderRecentDocuments. destruct (documents s) as [|d0 docs0] eqn:Hdocs.
  { split; [intros d Hd; by inversion Hd|]. by intros (? & ? & ? & ?). }
  rewrite <- Hdocs. clear d0 docs0 Hdocs.
  match goal with |- context [renderResultsTable ?docs ?title ?s0] =>
    destruct (renderResultsTable_spec docs title s0) as (-> & _ & _ & ->) end.
  assert (Htake : forall d,
             d ∈ take 10 (Array_sort
                            (fun a b => minus (Date_parse (createdAt b))
                                          (Date_parse (createdAt a)))
                            (documents s)) -> d ∈ documents s).
  { intros d Hd. eapply elem_of_Array_sort. erewrite <- (take_drop 10).
    apply elem_of_app. left. exact Hd. }
  split; [|by intros _].
  intros d Hd%elem_of_Array_sort. by apply Htake.
Qed.

Lemma handleSearch_rows s :
  (forall d, d ∈ displayed (handleSearch s) -> d ∈ documents s)
  /\ (table_shown (handleSearch s) ->
      forall d, d ∈ lastRenderedDocs (handleSearch s) -> d ∈ documents s).
Proof.
  unfold handleSearch. destruct (String.eqb _ _); [apply renderRecentDocuments_rows|].
  match goal with |- context [renderResultsTable ?docs ?title ?s0] =>
    destruct (renderResultsTable_spec docs title s0) as (-> & _ & _ & ->) end.
  assert (Hfilter : forall q d, d ∈ List.filter (matches q) (documents s) -> d ∈ documents s).
  { intros q d Hd%list_elem_of_In%filter_In. apply list_elem_of_In, Hd. }
  split; [|intros _; apply Hfilter].
  intros d Hd%elem_of_Array_sort. by eapply Hfilter.
Qed.

Lemma rerender_rows s : rows_current (rerender s).
Proof.
  unfold rows_current. destruct (rerender_view s) as (-> & _ & _ & _ & _ & _ & _ & _ & _ & ->).
  intros Hshown. unfold rerender. rewrite Hshown.
  destruct (negb _); [apply handleSearch_rows|apply renderRecentDocuments_rows].
Qed.

Lemma saveDocuments_rows s s0 : saveDocuments s = Ok s0 -> rows_current s0.
Proof.
  unfold saveDocuments, localStorage_setItem.
  destruct (setItem_throws (documents s)); simpl; [done|]. intros [= <-].
  apply rerender_rows.
Qed.

Lemma sortHeaderClick_rows k st : rows_current st -> rows_current (sortHeaderClick k st).
Proof.
  intros Hrows. unfold rows_current.
  destruct (sortHeaderClick_view k st) as (-> & _ & _ & _ & _ & _ & _ & _ & _ & ->).
  intros Hshown. destruct (Hrows Hshown) as [Hdisp Hlast].
  unfold sortHeaderClick. destruct (resultsView st) as [| |title0|title headers rows] eqn:Hview;
    try (by split).
  assert (Hshownt : table_shown st) by (by exists title, headers, rows).
  destruct (List.find _ headers) as [[k0 dir]|]; [|by split].
  match goal with |- context [renderResultsTable ?docs ?title ?s0] =>
    destruct (renderResultsTable_spec docs title s0) as (-> & _ & _ & ->) end.
  cbn [lastRenderedDocs set_currentSort].
  split; [|intros _; by apply Hlast].
  intros d Hd%elem_of_Array_sort. by apply Hlast.
Qed.

Lemma same_view_rows st st' : same_view st st' -> rows_current st -> rows_current st'.
Proof.
  intros (Hd & _ & _ & _ & Hl & _ & Hs & _ & Hv) Hrows. unfold rows_current, displayed, table_shown.
  rewrite Hd, Hl, Hs, Hv. exact Hrows.
Qed.

Lemma step_rows a st st' : rows_follow st -> step a st = Some st' -> rows_follow st'.
Proof.
  unfold rows_follow.
  intros Hrows [Hv|[(s & s0 & Hsave & Hv & _)|[(Hthrows & _)
               |[(s & -> & Hd & _)|[[k ->]| ->]]]]]%step_shape.
  - intros Hn. eapply same_view_rows; [exact Hv|]. apply Hrows.
    by destruct Hv as (<- & _).
  - intros _. eapply same_view_rows; [exact Hv|]. by eapply saveDocuments_rows.
  - done.
  - intros _ _.
    destruct (handleSearch_view s) as (-> & _). apply handleSearch_rows.
  - destruct (sortHeaderClick_view k st) as (-> & _).
    intros Hn. by apply sortHeaderClick_rows, Hrows.
  - intros _ Hshown. discriminate.
Qed.

Lemma step_sync a st st' : view_in_sync st -> step a st = Some st' -> view_in_sync st'.
Proof.
  intros Hsync [Hv|[(s & s0 & Hsave & Hv & _ & Hr)|[(_ & _ & _ & Hr)
               |[(s & -> & _)|[[k ->]| ->]]]]]%step_shape.
  - destruct Hv as (_ & _ & _ & ? & ? & ? & _ & _ & ?). by eapply view_in_sync_ext; [..|exact Hsync].
  - destruct Hv as (_ & _ & _ & ? & ? & ? & _ & _ & ?).
    eapply (view_in_sync_ext s0); [done..|]. eapply saveDocuments_sync; [exact Hsave|].
    destruct Hr as (? & ? & ? & _ & _ & ?). by eapply view_in_sync_ext; [..|exact Hsync].
  - destruct Hr as (? & ? & ? & _ & _ & ?). by eapply view_in_sync_ext; [..|exact Hsync].
  - apply handleSearch_sync.
  - by apply sortHeaderClick_sync.
  - by eapply view_in_sync_ext; [..|exact Hsync].
Qed.


End StepFacts.

(** X17.  Over any sequence of user actions the local cache holds the
    collection, unless the storage refuses to store the collection as
    it now is: if that is so before, it is so after, whatever
    succeeded or failed in between; and the cache is written at most
    once per action. *)
Theorem cache_follows_collection `{JsHost} (actions : list Action) (st st' : AppState) :
  cache_follows st ->
  run actions st = Some st' ->
  cache_follows st'
  /\ (cacheWrites st <= cacheWrites st' <= cacheWrites st + length actions)%nat.
Proof.
  revert st. induction actions as [|a actions IH]; intros st Hcache; simpl.
  - intros [= <-]. split; [done|lia].
  - destruct (step a st) as [st1|] eqn:Ha; [|done]. simpl. intros Hrun.
    destruct (step_cache _ _ _ Ha) as [Hstep Hc].
    destruct (IH st1 (Hstep Hcache) Hrun) as [Hcache' Hn]. split; [done|lia].
Qed.

Lemma cache_follows_collection_witness :
  let d1 := mkDoc "doc_1" "1/2566" "Finance" "Budget" "01/01/2566" "" []
              "2024-05-01T03:00:00.000Z" in
  let d2 := mkDoc "doc_2" "2/2565" "Plans" "Plan" "01/01/2565" "" []
              "2024-05-02T03:00:00.000Z" in
  let actions := [ASearchTab; ADelete (always (http_status 500)) true "doc_1";
                  ADelete (always (respond BODY_OK)) true "doc_2"] in
  exists st',
    @run example_host actions (initial_state [d1; d2]) = Some st'
    /\ localStorage st' = documents st' /\ (cacheWrites st' <= 3)%nat.
Proof.
  intros d1 d2 actions. eexists. split; [reflexivity|].
  destruct (@cache_follows_collection example_host actions (initial_state [d1; d2]) _
              (fun _ => eq_refl) eq_refl) as [Hcache [_ Hn]].
  split; [exact (Hcache eq_refl)|exact Hn].
Defined.

(** X18.  While the search tab shows, every row of the table is a
    document of the collection as it is now, and so is every document
    a click on a column header would sort, unless the storage refuses
    to store the collection as it now is: with that exception no
    sequence of searches, sorts, saves, updates and deletions leaves a
    deleted document or the old version of an updated one on
    display. *)
Theorem rows_are_current `{JsHost} (actions : list Action) (st st' : AppState) :
  rows_follow st ->
  run actions st = Some st' ->
  rows_follow st'.
Proof.
  revert st. induction actions as [|a actions IH]; intros st Hrows; simpl.
  - by intros [= <-].
  - destruct (step a st) as [st1|] eqn:Ha; [|done]. simpl.
    apply IH. by eapply step_rows.
Qed.

Lemma rows_are_current_witness :
  let d1 := mkDoc "doc_1" "1/2566" "Finance" "Budget" "01/01/2566" "" []
              "2024-05-01T03:00:00.000Z" in
  let d2 := mkDoc "doc_2" "2/2565" "Plans" "Plan" "01/01/2565" "" []
              "2024-05-02T03:00:00.000Z" in
  let actions := [ASearchTab; ASortClick K_docDate;
                  ADelete (always (respond BODY_OK)) true "doc_1"] in
  exists st',
    @run example_host actions (initial_state [d1; d2]) = Some st'
    /\ rows_current st' /\ displayed st' = [d2].
Proof.
  intros d1 d2 actions. eexists. split; [reflexivity|]. split; [|reflexivity].
  apply (@rows_are_current example_host actions (initial_state [d1; d2]) _).
  - intros _ Hshown. discriminate.
  - reflexivity.
  - reflexivity.
Defined.

(** X19.  Over any sequence of user actions the table stays the sorted
    rendering of the last rendered documents under the current sort
    state, with the sort marks of the headers taken from that state. *)
Theorem table_stays_in_sync `{JsHost} (actions : list Action) (st st' : AppState) :
  view_in_sync st ->
  run actions st = Some st' ->
  view_in_sync st'.
Proof.
  revert st. induction actions as [|a actions IH]; intros st Hsync; simpl.
  - by intros [= <-].
  - destruct (step a st) as [st1|] eqn:Ha; [|done]. simpl.
    apply IH. by eapply step_sync.
Qed.

Lemma table_stays_in_sync_witness :
  let d1 := mkDoc "doc_1" "1/2566" "Finance" "Budget" "01/01/2566" "" []
              "2024-05-01T03:00:00.000Z" in
  let d2 := mkDoc "doc_2" "2/2565" "Plans" "Plan" "01/01/2565" "" []
              "2024-05-02T03:00:00.000Z" in
  let form := {| edit_docId := "doc_2"; edit_docNumber := "3/2565";
                 edit_docDate := "02/01/2565"; edit_source := "Plans";
                 edit_subject := "Plan"; edit_notes := "" |} in
  let actions := [ASearch "plan"; ASortClick K_subject;
                  AUpdate (always (respond BODY_OK)) form] in
  exists st',
    @run example_host actions (initial_state [d1; d2]) = Some st'
    /\ @view_in_sync example_host st'.
Proof.
  intros d1 d2 form actions. eexists. split; [reflexivity|].
  apply (@table_stays_in_sync example_host actions (initial_state [d1; d2]) _).
  - exact I.
  - reflexivity.
Defined.



(** ** Sorting the table *)

Lemma StronglySorted_impl_elem {A} (R R' : A -> A -> Prop) (l : list A) :
  (forall a b, a ∈ l -> b ∈ l -> R a b -> R' a b) ->
  StronglySorted R l -> StronglySorted R' l.
Proof.
  intros Himpl Hs. induction Hs as [|a l Hs IH Ha]; constructor.
  - apply IH. intros x y Hx Hy. apply Himpl; by right.
  - rewrite Forall_forall in *. intros b Hb. apply Himpl; [by left|by right|by apply Ha].
Qed.

Section SortClickFacts.
Context `{JsHost}.

Lemma docDate_times (dir : Direction) (docs : list Document) :
  Z.abs LocalTZA <= msPerDay ->
  Forall (fun d => plain_date (docDate d)) docs ->
  orders_desc (compareDocs {| key := K_docDate; direction := dir |})
    (fun d => match dir with desc => docTime d | asc => - docTime d end) docs.
Proof.
  intros Htz Hall a b Ha Hb. rewrite Forall_forall in Hall.
  destruct (Hall a Ha) as (ga & Hga & Hya), (Hall b Hb) as (gb & Hgb & Hyb).
  destruct (docDate_order_calendar _ _ _ _ Htz Hga Hgb Hya Hyb) as (ta & tb & Hta & Htb & _).
  unfold compareDocs, docTime. cbn [key direction]. rewrite Hta, Htb.
  destruct dir; simpl; lia.
Qed.

End SortClickFacts.

(** X21.  A click on a column header rearranges the rows on display
    and does nothing else to them: the rows after the click are the
    rows before it in some order, none lost and none repeated,
    whatever the comparisons of the host answer. *)
Theorem sort_click_permutes_rows `{JsHost} (k : SortKey) (st : AppState) :
  view_in_sync st -> table_shown st ->
  displayed (sortHeaderClick k st) ≡ₚ displayed st
  /\ lastRenderedDocs (sortHeaderClick k st) = lastRenderedDocs st
  /\ table_shown (sortHeaderClick k st).
Proof.
  intros Hsync Hshown.
  pose proof Hshown as (title & headers & rows & Hview).
  assert (Hrows : displayed st ≡ₚ lastRenderedDocs st /\ lastRenderedDocs st <> []).
  { unfold view_in_sync in Hsync. unfold displayed. rewrite Hview in *.
    destruct Hsync as (_ & _ & -> & Hne). split; [apply Array_sort_perm|done]. }
  destruct Hrows as [Hrows Hne].
  unfold sortHeaderClick. rewrite Hview.
  destruct (List.find _ headers) as [[k0 dir]|]; [|by split_and!].
  match goal with |- context [renderResultsTable ?docs ?title ?s0] =>
    destruct (renderResultsTable_spec docs title s0) as (Hl & _ & _ & Hd) end.
  rewrite Hl, Hd. cbn [lastRenderedDocs set_currentSort].
  split; [by rewrite Array_sort_perm|]. split; [done|].
  unfold renderResultsTable. cbn [lastRenderedDocs set_currentSort].
  destruct (lastRenderedDocs st); [done|]. by eexists _, _, _.
Qed.

Lemma sort_click_permutes_rows_witness :
  let d1 := mkDoc "doc_1" "1/2566" "Finance" "Budget" "01/01/2566" "" []
              "2024-05-01T03:00:00.000Z" in
  let d2 := mkDoc "doc_2" "2/2565" "Plans" "Plan" "01/01/2565" "" []
              "2024-05-02T03:00:00.000Z" in
  let st := @handleSearch example_host (with_search "" (initial_state [d1; d2])) in
  displayed (@sortHeaderClick example_host K_subject st) ≡ₚ displayed st.
Proof.
  intros d1 d2 st.
  apply (@sort_click_permutes_rows example_host K_subject st).
  - apply handleSearch_sync.
  - by eexists _, _, _.
Defined.

(** X22.  After a click on the date header the rows are in calendar
    order, descending at the first click and ascending when the date
    was already the descending sort key: no row is dated earlier (when
    descending; later, when ascending) than a row below it.  This
    holds when every date on display is an existing date whose
    Gregorian year is not one of 0 to 99, and the local time zone is
    within a day of UTC. *)
Theorem sort_by_date_is_calendar_order `{JsHost} (st : AppState) :
  Z.abs LocalTZA <= msPerDay ->
  view_in_sync st -> table_shown st ->
  Forall (fun d => plain_date (docDate d)) (lastRenderedDocs st) ->
  let st' := sortHeaderClick K_docDate st in
  key (currentSort st') = K_docDate
  /\ direction (currentSort st')
     = match key (currentSort st), direction (currentSort st) with
       | K_docDate, desc => asc
       | _, _ => desc
       end
  /\ calendar_ordered (direction (currentSort st')) (displayed st').
Proof.
  intros Htz Hsync Hshown Hall. cbn zeta.
  pose proof Hshown as (title & headers & rows & Hview).
  pose proof Hsync as Hsync'. unfold view_in_sync in Hsync'. rewrite Hview in Hsync'.
  destruct Hsync' as (_ & -> & _ & _).
  unfold sortHeaderClick. rewrite Hview.
  assert (Hfind : List.find (fun h => bool_decide (fst h = K_docDate))
                    (List.map (fun k => (k, getSortAttr (currentSort st) k)) sortable_keys)
                  = Some (K_docDate, getSortAttr (currentSort st) K_docDate)) by reflexivity.
  rewrite Hfind.
  match goal with |- context [renderResultsTable ?docs ?title ?s0] =>
    destruct (renderResultsTable_spec docs title s0) as (_ & _ & -> & ->) end.
  cbn [currentSort set_currentSort key direction lastRenderedDocs].
  split; [done|].
  assert (Hdir : (if bool_decide (key (currentSort st) = K_docDate)
                     && bool_decide (getSortAttr (currentSort st) K_docDate = Some desc)
                  then asc else desc)
                 = match key (currentSort st), direction (currentSort st) with
                   | K_docDate, desc => asc
                   | _, _ => desc
                   end).
  { destruct (currentSort st) as [k0 d0]. destruct k0, d0; reflexivity. }
  rewrite Hdir. split; [done|].
  set (dir := match key (currentSort st) with K_docDate => _ | _ => _ end).
  pose proof (Array_sort_desc _ _ _ (docDate_times dir _ Htz Hall)) as Hsorted.
  eapply StronglySorted_impl_elem; [|exact Hsorted].
  intros a b Ha%elem_of_Array_sort Hb%elem_of_Array_sort Hab ga gb Hga Hgb.
  rewrite Forall_forall in Hall.
  destruct (Hall a Ha) as (ga' & Hga' & Hya), (Hall b Hb) as (gb' & Hgb' & Hyb).
  rewrite Hga in Hga'. injection Hga' as <-. rewrite Hgb in Hgb'. injection Hgb' as <-.
  destruct (docDate_order_calendar _ _ _ _ Htz Hga Hgb Hya Hyb) as (ta & tb & Hta & Htb & Hlt).
  destruct (docDate_order_calendar _ _ _ _ Htz Hgb Hga Hyb Hya) as (tb' & ta' & Htb' & Hta' & Hgt).
  rewrite Hta in Hta'. injection Hta' as <-. rewrite Htb in Htb'. injection Htb' as <-.
  unfold docTime in Hab. rewrite Hta, Htb in Hab. simpl in Hab.
  destruct dir; [rewrite <- Hgt|rewrite <- Hlt]; lia.
Qed.

Lemma sort_by_date_is_calendar_order_witness :
  let d1 := mkDoc "doc_1" "1/2565" "Plans" "Plan" "31/12/2565" "" []
              "2024-05-01T03:00:00.000Z" in
  let d2 := mkDoc "doc_2" "2/2566" "Finance" "Budget" "01/01/2566" "" []
              "2024-05-02T03:00:00.000Z" in
  let st := @handleSearch example_host (with_search "" (initial_state [d1; d2])) in
  calendar_ordered desc (displayed (@sortHeaderClick example_host K_docDate st))
  /\ displayed (@sortHeaderClick example_host K_docDate st) = [d2; d1].
Proof.
  intros d1 d2 st.
  destruct (@sort_by_date_is_calendar_order example_host st) as (_ & _ & Hord).
  - vm_compute. discriminate.
  - apply handleSearch_sync.
  - by eexists _, _, _.
  - repeat constructor.
    + exists (2023, 1, 1). split; [reflexivity|]. simpl. lia.
    + exists (2022, 12, 31). split; [reflexivity|]. simpl. lia.
  - split; [exact Hord|reflexivity].
Defined.

(** ** Attachments *)

Lemma handleFileChange_refused i file st :
  refused file ->
  files (fileInput i (handleFileChange i (Some file) st)) = None
  /\ documents (handleFileChange i (Some file) st) = documents st.
Proof.
  intros Href. unfold handleFileChange.
  destruct (Z.ltb_spec maxSize (file_size file)) as [Hbig|Hsmall].
  { by destruct i. }
  destruct Href as [?|Htype]; [lia|].
  rewrite (bool_decide_eq_false_2 _ Htype). by destruct i.
Qed.

(** X23.  A file the file input has refused (larger than 50 MB, or not
    an image or a PDF) is attached by neither a later update nor a
    later save: the updated document keeps the attachment it had, and
    the saved document has none. *)
Theorem refused_file_is_not_attached `{JsHost} (net : Network) (env : SaveEnv)
    (eform : EditForm) (sform : SaveForm) (file : File) (st : AppState) :
  refused file ->
  (forall old new,
      find_id (edit_docId eform) (documents st) = Some old ->
      find_id (edit_docId eform)
        (documents (fst (handleUpdateDocument net eform
                           (handleFileChange edit_attachment (Some file) st)))) = Some new ->
      fileName new = fileName old /\ fileContent new = fileContent old
      /\ fileType new = fileType old)
  /\ (forall st' errs,
        handleSaveDocument env sform (handleFileChange attachment (Some file) st)
        = Some (st', errs) ->
        documents st' = documents st
        \/ exists doc, documents st' = doc :: documents st
                       /\ fileName doc = None /\ fileContent doc = None
                       /\ fileType doc = None).
Proof.
  intros Href. split.
  - destruct (handleFileChange_refused edit_attachment file st Href) as [Hfiles Hdocs].
    set (st0 := handleFileChange edit_attachment (Some file) st) in *.
    cbn [fileInput] in Hfiles.
    intros old new Hold Hnew.
    destruct (handleUpdateDocument_cases net eform st0)
      as [(i & old' & f & v & Hvalid & Hfind & Henc & Hex)|(Hd & _)].
    + destruct (handleUpdateDocument_commit net eform st0 i old' f v Hvalid Hfind Henc Hex)
        as (_ & Hd & _).
      assert (Hold' : old' = old).
      { rewrite Hdocs in Hfind. unfold find_id in Hold. rewrite Hfind in Hold.
        by injection Hold. }
      subst old'.
      assert (Hf : f = None).
      { unfold encode_attachment in Henc. rewrite Hfiles in Henc. by injection Henc. }
      subst f. rewrite Hd in Hnew.
      pose proof Hfind as (_ & Hid & _)%list_find_Some.
      rewrite (find_id_insert _ _ i old (updatedDocData old eform None)) in Hnew; [|done|done].
      by injection Hnew as <-.
    + rewrite Hd, Hdocs, Hold in Hnew. by injection Hnew as <-.
  - destruct (handleFileChange_refused attachment file st Href) as [Hfiles Hdocs].
    set (st0 := handleFileChange attachment (Some file) st) in *.
    cbn [fileInput] in Hfiles.
    intros st' errs Hs.
    destruct (handleSaveDocument_cases env sform st0 st' errs Hs) as [[doc Hc]|(Hd & _)].
    + right. exists doc.
      destruct (handleSaveDocument_commit env sform st0 doc Hc) as (st'' & Hs' & Hd & _).
      rewrite Hs in Hs'. injection Hs' as <- _. rewrite Hd, Hdocs. split; [done|].
      destruct Hc as (_ & tgs & f & v & _ & Henc & -> & _).
      unfold encode_attachment in Henc. rewrite Hfiles in Henc. injection Henc as <-.
      done.
    + left. by rewrite Hd.
Qed.

Lemma refused_file_is_not_attached_witness :
  let old := mkDoc "doc_1" "1/2566" "Finance" "Budget" "01/01/2566" "" []
               "2024-05-01T03:00:00.000Z" in
  let eform := {| edit_docId := "doc_1"; edit_docNumber := "2/2566";
                  edit_docDate := "02/01/2566"; edit_source := "Plans";
                  edit_subject := "Plan"; edit_notes := "" |} in
  let sform := {| save_docNumber := "3/2566"; save_docDate := "03/01/2566";
                  save_source := "Plans"; save_subject := "Plan"; save_notes := "" |} in
  let env := {| tagging := Ok BODY_OK; now := 1700000000000;
                nowISO := "2023-11-14T22:13:20.000Z"; store := always (respond BODY_OK) |} in
  let script := {| file_name := "run.sh"; file_type := "text/x-shellscript";
                   file_size := 10; file_base64 := Ok "IyEvYmluL3No" |} in
  exists new,
    find_id "doc_1"
      (documents (fst (@handleUpdateDocument example_host (always (respond BODY_OK)) eform
                         (handleFileChange edit_attachment (Some script)
                            (initial_state [old]))))) = Some new
    /\ docNumber new = "2/2566" /\ fileName new = None.
Proof.
  intros old eform sform env script.
  destruct (@refused_file_is_not_attached example_host (always (respond BODY_OK)) env
              eform sform script (initial_state [old])) as [Hupdate _].
  - right. unfold allowedTypes. rewrite !elem_of_cons, elem_of_nil.
    intros [?|[?|[?|[?|[]]]]]; discriminate.
  - eexists. split; [reflexivity|]. split; [reflexivity|].
    destruct (Hupdate old _ eq_refl eq_refl) as (Hn & _). exact Hn.
Defined.

(** ** Dates that the forms accept *)

Lemma DayWithinYear_bounds leap mn : 0 <= DayWithinYear leap mn <= 335.
Proof.
  unfold DayWithinYear. destruct leap;
    (destruct mn as [|p|p]; [lia| |lia];
     do 4 (try (destruct p as [p|p|]; try lia))).
Qed.

Lemma dateRegex_be_fields s :
  dateRegex_test s = true -> exists d m y, be_fields s = Some (d, m, y).
Proof.
  intros Hre. unfold be_fields.
  destruct s as [|d1 [|d2 [|s1 [|m1 [|m2 [|s2 [|y1 [|y2 [|y3 [|y4 [|? ?]]]]]]]]]]];
    try discriminate.
  rewrite Hre. eauto.
Qed.

(** X24.  A date that passes the validation of the forms (two digits,
    slash, two digits, slash, four digits) always has a time to sort
    by: [beDateToTimestamp] gives a number within the range of dates,
    never [NaN], whatever the digits are, when the local time zone is
    within a day of UTC. *)
Theorem validated_date_has_a_time `{JsHost} (s : string) :
  dateRegex_test s = true ->
  Z.abs LocalTZA <= msPerDay ->
  exists t, beDateToTimestamp s = Some t /\ Z.abs t <= 8640000000000000.
Proof.
  intros Hre Htz. destruct (dateRegex_be_fields s Hre) as (d & m & y & Hf).
  pose proof (be_fields_digits _ _ _ _ Hf) as (Hd & Hm & Hy).
  rewrite (beDateToTimestamp_fields _ _ _ _ Hf). unfold Date_ymd. simpl.
  set (yr := if (0 <=? y - 543) && (y - 543 <=? 99) then 1900 + (y - 543) else y - 543).
  assert (Hyr : -543 <= yr <= 9456).
  { subst yr. destruct ((0 <=? y - 543) && (y - 543 <=? 99)) eqn:Hc; [|lia].
    apply andb_true_iff in Hc as [?%Z.leb_le ?%Z.leb_le]. lia. }
  assert (Hday : -1200000 <= MakeDay yr (m - 1) d <= 3100000).
  { unfold MakeDay.
    pose proof (DayFromYear_bounds (yr + (m - 1) / 12)) as Hb.
    pose proof (DayWithinYear_bounds (DaysInYear (yr + (m - 1) / 12) =? 366) ((m - 1) mod 12)).
    assert (-1 <= (m - 1) / 12 <= 8) by (Z.div_mod_to_equations; lia).
    lia. }
  unfold TimeClip, msPerDay in *.
  destruct (Z.ltb_spec 8640000000000000 (Z.abs (MakeDay yr (m - 1) d * 86400000 - LocalTZA)));
    [lia|].
  eexists. split; [reflexivity|lia].
Qed.

Lemma validated_date_has_a_time_witness :
  exists t, @beDateToTimestamp example_host "99/99/9999" = Some t
            /\ Z.abs t <= 8640000000000000.
Proof.
  apply (@validated_date_has_a_time example_host "99/99/9999").
  - reflexivity.
  - vm_compute. discriminate.
Defined.

(** X25.  When none of the dates of the rows can be read as a number,
    sorting by date, in either direction, leaves the rows in the order
    they were in. *)
Theorem sort_by_unreadable_dates_keeps_order `{JsHost} (dir : Direction)
    (docs : list Document) :
  Forall (fun d => beDateToTimestamp (docDate d) = None) docs ->
  Array_sort (compareDocs {| key := K_docDate; direction := dir |}) docs = docs.
Proof.
  intros Hall. apply (Array_sort_sorted _ (fun _ => 0)).
  - intros a b Ha Hb. rewrite Forall_forall in Hall.
    unfold compareDocs. cbn [key direction]. rewrite (Hall a Ha), (Hall b Hb).
    by destruct dir.
  - clear Hall. induction docs as [|d docs IH]; constructor; [done|].
    apply Forall_forall. intros; lia.
Qed.

Lemma sort_by_unreadable_dates_keeps_order_witness :
  let d1 := mkDoc "doc_1" "1/2566" "Finance" "Budget" "ab/cd/efgh" "" []
              "2024-05-01T03:00:00.000Z" in
  let d2 := mkDoc "doc_2" "2/2565" "Plans" "Plan" "1/x/2565" "" []
              "2024-05-02T03:00:00.000Z" in
  Array_sort (@compareDocs example_host {| key := K_docDate; direction := asc |}) [d2; d1]
  = [d2; d1].
Proof.
  intros d1 d2.
  apply (@sort_by_unreadable_dates_keeps_order example_host asc [d2; d1]).
  repeat constructor.
Defined.
